(** * NeuroShellOS semantic interpreter (sample.py): a shallow embedding

    The interpreter of [sample.py] turns one line of free text into an
    intent, a target id and a label, and applies the intent to a registry
    of semantic elements.  This file embeds the text pipeline
    ([process_intent]), the executor ([execute_intent]) and the state of
    the four element classes, and settles the properties of the
    specification against them.

    Modelling choices.
    - Text is [string] restricted to ASCII: [str.lower], [str.strip],
      [str.split], [re]'s [\s], [\d], [\w], [\b] and [re.I] are modelled
      on the ASCII range (code points above 127 are taken as plain
      symbols: no case, not a space, not a word character).
    - The registry (a Python [dict] from id to element object) is a
      [gmap string element].  Every element object is referenced from
      the registry under its own id only, so in-place mutation of an
      element is an update of that one entry.
    - Qt widgets (layout, progress bar, list widget, labels, the opacity
      animation of [pulse]) carry no interpreter state and are left out;
      the log widget is kept as the list of the lines appended to it.
    - [uuid.uuid4()] is an oracle: the 128-bit integer it returns is a
      parameter of the functions that may call it.
    - Python exceptions are explicit: functions that can raise return a
      [result].  A raise ends the command; the lines logged before it
      stay in the log widget, which [Raise] does not record.  A session
      ([run]) is followed up to its first exception. *)

From Stdlib Require Import ZArith Ascii String List Bool Lia DecimalString DecimalPos.
From stdpp Require Import gmap strings list.
Import ListNotations.

Local Open Scope bool_scope.

(** ** Characters and strings (the part of [str] and [re] the code uses) *)

Definition dquote : ascii := ascii_of_nat 34.
Definition squote : ascii := ascii_of_nat 39.
Definition newline : ascii := ascii_of_nat 10.

Definition in_range (lo hi : N) (c : ascii) : bool :=
  (lo <=? N_of_ascii c)%N && (N_of_ascii c <=? hi)%N.

(** [str.isspace] / [\s] on ASCII: TAB, LF, VT, FF, CR, FS, GS, RS, US, SPACE. *)
Definition is_space (c : ascii) : bool :=
  in_range 9 13 c || in_range 28 32 c.

(** [\d] on ASCII. *)
Definition is_digit (c : ascii) : bool := in_range 48 57 c.

Definition is_upper (c : ascii) : bool := in_range 65 90 c.
Definition is_lower (c : ascii) : bool := in_range 97 122 c.

(** [\w] on ASCII: letters, digits and the underscore. *)
Definition is_word (c : ascii) : bool :=
  is_digit c || is_upper c || is_lower c || (N_of_ascii c =? 95)%N.

(** [[a-f0-9]] *)
Definition is_hex_lower (c : ascii) : bool :=
  in_range 97 102 c || is_digit c.

Definition is_quote (c : ascii) : bool :=
  Ascii.eqb c squote || Ascii.eqb c dquote.

Definition lower_char (c : ascii) : ascii :=
  if is_upper c then ascii_of_N (N_of_ascii c + 32) else c.

Definition upper_char (c : ascii) : ascii :=
  if is_lower c then ascii_of_N (N_of_ascii c - 32) else c.

(** [s.lower()] *)
Fixpoint lower (s : string) : string :=
  match s with
  | EmptyString => EmptyString
  | String c s' => String (lower_char c) (lower s')
  end.

(** [s.capitalize()]: first character upper-cased, the rest lower-cased. *)
Definition capitalize (s : string) : string :=
  match s with
  | EmptyString => EmptyString
  | String c s' => String (upper_char c) (lower s')
  end.

Fixpoint lstrip (s : string) : string :=
  match s with
  | EmptyString => EmptyString
  | String c s' => if is_space c then lstrip s' else s
  end.

Fixpoint rstrip (s : string) : string :=
  match s with
  | EmptyString => EmptyString
  | String c s' =>
      match rstrip s' with
      | EmptyString => if is_space c then EmptyString else String c EmptyString
      | r => String c r
      end
  end.

(** [s.strip()] *)
Definition strip (s : string) : string := rstrip (lstrip s).

(** [s.split()]: the maximal runs of non-whitespace characters, in order.
    [cur] is the token being read, if any. *)
Fixpoint split_aux (cur : option string) (s : string) : list string :=
  match s with
  | EmptyString => match cur with Some t => [t] | None => [] end
  | String c s' =>
      if is_space c then
        match cur with
        | Some t => t :: split_aux None s'
        | None => split_aux None s'
        end
      else
        split_aux (Some (match cur with
                         | Some t => t +:+ String c EmptyString
                         | None => String c EmptyString
                         end)) s'
  end.

Definition split (s : string) : list string := split_aux None s.

(** [w in s] for strings. *)
Fixpoint contains (w s : string) : bool :=
  String.prefix w s ||
  match s with
  | EmptyString => false
  | String _ s' => contains w s'
  end.

(** [any(w in text for w in ws)] *)
Definition any_in (ws : list string) (text : string) : bool :=
  existsb (fun w => contains w text) ws.

Fixpoint string_forallb (p : ascii -> bool) (s : string) : bool :=
  match s with
  | EmptyString => true
  | String c s' => p c && string_forallb p s'
  end.

(** [s.replace(old, '')]: the occurrences of [old] are removed from left
    to right, without overlap; [skip] counts the characters of the
    occurrence under removal that are still to be dropped.  An empty
    [old] leaves [s] as it is. *)
Fixpoint remove_all_aux (old : string) (skip : nat) (s : string) : string :=
  match s with
  | EmptyString => EmptyString
  | String c s' =>
      match skip with
      | S k => remove_all_aux old k s'
      | O =>
          if String.prefix old s
          then remove_all_aux old (String.length old - 1) s'
          else String c (remove_all_aux old 0 s')
      end
  end.

Definition remove_all (old s : string) : string :=
  match old with
  | EmptyString => s
  | _ => remove_all_aux old 0 s
  end.

(** ** SDK_SCHEMA *)

Module SDK_SCHEMA.
Definition metric_range : Z * Z := (0, 100)%Z.
Definition max_data_items : nat := 50.
Definition max_label_length : nat := 32.

(** [id_format], the pattern [node-[a-f0-9]{4}], as a matcher anchored at the
    head of [s]: the matched text, if any. *)
Definition id_format_at (s : string) : option string :=
  if String.prefix "node-" s then
    let suffix := String.substring 5 4 s in
    if (String.length suffix =? 4)%nat && string_forallb is_hex_lower suffix
    then Some ("node-" +:+ suffix)
    else None
  else None.

Definition token (name : string) : option string :=
  if String.eqb name "primary" then Some "#3B82F6"
  else if String.eqb name "success" then Some "#10B981"
  else if String.eqb name "danger" then Some "#EF4444"
  else if String.eqb name "surface" then Some "#1E293B"
  else if String.eqb name "accent" then Some "#F59E0B"
  else None.
End SDK_SCHEMA.

(** [re.search(id_format, s)]: the leftmost match. *)
Fixpoint search_id (s : string) : option string :=
  match SDK_SCHEMA.id_format_at s with
  | Some m => Some m
  | None =>
      match s with
      | EmptyString => None
      | String _ s' => search_id s'
      end
  end.

(** [re.fullmatch(id_format, s)] *)
Definition fullmatch_id (s : string) : bool :=
  match SDK_SCHEMA.id_format_at s with
  | Some m => String.eqb m s
  | None => false
  end.

(** [re.sub(id_format, '', s)]: one left-to-right pass removing the
    non-overlapping matches (each is 9 characters long). *)
Fixpoint sub_id_aux (skip : nat) (s : string) : string :=
  match s with
  | EmptyString => EmptyString
  | String c s' =>
      match skip with
      | S k => sub_id_aux k s'
      | O =>
          match SDK_SCHEMA.id_format_at s with
          | Some _ => sub_id_aux 8 s'
          | None => String c (sub_id_aux 0 s')
          end
      end
  end.

Definition sub_id (s : string) : string := sub_id_aux 0 s.

(** The longest prefix of digits of [s]. *)
Fixpoint digits_prefix (s : string) : string :=
  match s with
  | EmptyString => EmptyString
  | String c s' => if is_digit c then String c (digits_prefix s') else EmptyString
  end.

(** The character that follows the digits read by [digits_prefix]. *)
Fixpoint after_digits (s : string) : option ascii :=
  match s with
  | EmptyString => None
  | String c s' => if is_digit c then after_digits s' else Some c
  end.

(** [re.search] of the pattern [\b(\d+)\b] in [s], group 1.  [prev_word] tells whether the
    character before the current position is a word character.  A match
    starts at a digit that follows a non-word character (or the start),
    takes the whole run of digits, and needs a non-word character (or the
    end) after the run; taking fewer digits never helps, a digit being a
    word character. *)
Fixpoint search_int_aux (prev_word : bool) (s : string) : option string :=
  match s with
  | EmptyString => None
  | String c s' =>
      if negb prev_word && is_digit c then
        match after_digits s with
        | Some d => if is_word d then search_int_aux (is_word c) s'
                    else Some (digits_prefix s)
        | None => Some (digits_prefix s)
        end
      else search_int_aux (is_word c) s'
  end.

Definition search_int (s : string) : option string := search_int_aux false s.

(** ** Exceptions *)

(** The exceptions the interpreter can raise: [self.registry[tid]] on a
    missing key, [raw_text.split()[-1]] on an empty list, and [int] on a
    string longer than the interpreter accepts. *)
Inductive exn : Type := KeyError | IndexError | ValueError.

Inductive result (A : Type) : Type :=
| Ok (a : A)
| Raise (e : exn).
Arguments Ok {A} a.
Arguments Raise {A} e.

#[global] Instance result_ret : MRet result := fun A a => Ok a.

#[global] Instance result_bind : MBind result := fun A B k r =>
  match r with
  | Ok a => k a
  | Raise e => Raise e
  end.

(** The limit of CPython (3.11 and later, default setting) on the number
    of digits of a string that [int] converts. *)
Definition max_str_digits : nat := 4300.

(** The value of a string of ASCII digits in base ten. *)
Definition decimal_value (ds : string) : Z :=
  fold_left (fun acc c => (10 * acc + (Z.of_N (N_of_ascii c) - 48))%Z)
            (list_ascii_of_string ds) 0%Z.

(** [int(ds)] for a string of ASCII digits: [ValueError] when [ds] has
    more than [max_str_digits] digits. *)
Definition int (ds : string) : result Z :=
  if (max_str_digits <? String.length ds)%nat then Raise ValueError
  else Ok (decimal_value ds).

(** [str(n)] for an integer. *)
Definition str_of_int (n : Z) : string := NilZero.string_of_int (Z.to_int n).

(** [re.findall] of the pattern QUOTE, lazy any-characters group, QUOTE
    (QUOTE being the class of the single and the double quote) in [s]:
    the contents of the quoted pieces, in order.  A piece opens at a quote character and closes at
    the next quote character of either kind; [.] does not match a line
    feed, so a line feed before the closing quote cancels the piece.
    [open] holds the content read since the opening quote, if one is
    open. *)
Fixpoint findall_quoted_aux (open : option string) (s : string) : list string :=
  match s with
  | EmptyString => []
  | String c s' =>
      match open with
      | None =>
          if is_quote c then findall_quoted_aux (Some EmptyString) s'
          else findall_quoted_aux None s'
      | Some acc =>
          if is_quote c then acc :: findall_quoted_aux None s'
          else if Ascii.eqb c newline then findall_quoted_aux None s'
          else findall_quoted_aux (Some (acc +:+ String c EmptyString)) s'
      end
  end.

Definition findall_quoted (s : string) : list string := findall_quoted_aux None s.

(** The text up to the first line feed: what the greedy any-characters
    group matches. *)
Fixpoint line_prefix (s : string) : string :=
  match s with
  | EmptyString => EmptyString
  | String c s' => if Ascii.eqb c newline then EmptyString else String c (line_prefix s')
  end.

Fixpoint drop (n : nat) (s : string) : string :=
  match n, s with
  | O, _ => s
  | S _, EmptyString => EmptyString
  | S k, String _ s' => drop k s'
  end.

(** The pattern of [label_match]: one of the words called, named, item,
    for, to (with [re.I]), then [\s+], then a greedy any-characters
    group; here anchored at the head of [s].  The result is group 1 for
    the first alternative that is followed by white space: [\s+] takes
    the whole run of white space and the group the rest of the line. *)
Definition connective_at (s : string) : option string :=
  let try (w : string) : option string :=
    if String.prefix w (lower s) then
      match drop (String.length w) s with
      | String c rest => if is_space c then Some (line_prefix (lstrip rest)) else None
      | EmptyString => None
      end
    else None in
  fold_right (fun w later => match try w with Some g => Some g | None => later end)
             None ["called"; "named"; "item"; "for"; "to"].

(** [re.search] of the pattern above: the leftmost match. *)
Fixpoint search_connective (s : string) : option string :=
  match connective_at s with
  | Some g => Some g
  | None =>
      match s with
      | EmptyString => None
      | String _ s' => search_connective s'
      end
  end.


(** ** [uuid.uuid4()] and its string form *)

(** One digit of the [x] format. *)
Definition hex_digit (n : Z) : ascii :=
  if (n <? 10)%Z then ascii_of_N (Z.to_N (48 + n)) else ascii_of_N (Z.to_N (87 + n)).

(** ['%0nx' % u]: the [n] low hexadecimal digits of [u], most significant
    first (all of [u] when [0 <= u < 16 ^ n]). *)
Fixpoint hex_digits (n : nat) (u : Z) : string :=
  match n with
  | O => EmptyString
  | S k => String (hex_digit (Z.land (Z.shiftr u (4 * Z.of_nat k)) 15)) (hex_digits k u)
  end.

(** [str(u)] for a [uuid.UUID] of integer value [u] (library code):
    the 32 digits of ['%032x' % u] in groups of 8, 4, 4, 4 and 12. *)
Definition uuid_str (u : Z) : string :=
  let hex := hex_digits 32 u in
  String.substring 0 8 hex +:+ "-" +:+ String.substring 8 4 hex +:+ "-" +:+
  String.substring 12 4 hex +:+ "-" +:+ String.substring 16 4 hex +:+ "-" +:+
  String.substring 20 12 hex.

(** The integer values [uuid.uuid4()] can return: 128 bits with the
    version nibble 4 and the variant bits 10. *)
Definition is_uuid4 (u : Z) : bool :=
  (0 <=? u)%Z && (u <? 2 ^ 128)%Z &&
  (Z.land (Z.shiftr u 76) 15 =? 4)%Z && (Z.land (Z.shiftr u 62) 3 =? 2)%Z.

(** ** Elements *)

(** The class of an element with the keys its class adds to [self.state]. *)
Inductive class_state : Type :=
| BaseState
| MetricState (value : Z)
| DataViewState (items : list string)
| StatusState (active : bool).

(** An element object: [eid], [role], [state["title"]], [state["color"]]
    and the state of its class. *)
Record element : Type := mk_element {
  eid : string;
  role : string;
  title : string;
  color : string;
  state : class_state
}.

(** [self.capabilities]: set by the constructors and never changed, so a
    function of the class. *)
Definition capabilities (el : element) : list string :=
  match state el with
  | BaseState => ["color_change"]
  | MetricState _ => ["color_change"; "numeric_update"]
  | DataViewState _ => ["color_change"; "list_append"]
  | StatusState _ => ["color_change"; "toggle_status"]
  end.

(** [cap in target.capabilities] *)
Definition has_capability (cap : string) (el : element) : bool :=
  existsb (String.eqb cap) (capabilities el).

Module BaseSemanticElement.
Definition init (eid' role' title' : string) : element :=
  let clean_title := String.substring 0 SDK_SCHEMA.max_label_length title' in
  mk_element eid' role' clean_title "primary" BaseState.
End BaseSemanticElement.

Module MetricElement.
Definition init (eid' role' title' : string) : element :=
  let self := BaseSemanticElement.init eid' role' title' in
  mk_element (eid self) (role self) (title self) (color self) (MetricState 0).

Definition update_view (self : element) (val : Z) : element :=
  let '(min_v, max_v) := SDK_SCHEMA.metric_range in
  let clamped_val := Z.max min_v (Z.min max_v val) in
  mk_element (eid self) (role self) (title self) (color self) (MetricState clamped_val).
End MetricElement.

Module DataViewElement.
Definition init (eid' role' title' : string) : element :=
  let self := BaseSemanticElement.init eid' role' title' in
  mk_element (eid self) (role self) (title self) (color self) (DataViewState []).

(** The new value of [self.state["items"]]: [new_item] is appended when
    it is truthy (given and not empty), then the list is cut to its
    last [max_data_items] entries. *)
Definition update_items (items : list string) (new_item : option string) : list string :=
  let items :=
    match new_item with
    | Some (String _ _ as x) => items ++ [x]
    | _ => items
    end in
  let limit := SDK_SCHEMA.max_data_items in
  if (limit <? length items)%nat then skipn (length items - limit) items else items.

(** A method of data views only. *)
Definition update_view (self : element) (new_item : option string) : element :=
  match state self with
  | DataViewState items =>
      mk_element (eid self) (role self) (title self) (color self)
                 (DataViewState (update_items items new_item))
  | _ => self
  end.
End DataViewElement.

Module StatusElement.
Definition init (eid' role' title' : string) : element :=
  let self := BaseSemanticElement.init eid' role' title' in
  mk_element (eid self) (role self) (title self) (color self) (StatusState false).

(** [update_view] redraws the indicator from [state["active"]]; the
    state is left as it is. *)
Definition update_view (self : element) : element := self.

(** [target.state["active"] = not target.state["active"]] *)
Definition flip_active (self : element) : element :=
  match state self with
  | StatusState active =>
      mk_element (eid self) (role self) (title self) (color self)
                 (StatusState (negb active))
  | _ => self
  end.
End StatusElement.

(** ** The interpreter *)

(** The values of [intent] in [process_intent]. *)
Inductive intent : Type :=
| unknown
| INTERACT_TOGGLE | INTERACT_APPEND | INTERACT_NUMERIC
| CREATE_METRIC | CREATE_DATA | CREATE_STATUS | CREATE_BASE.

(** [intent.startswith('CREATE_')] *)
Definition is_create (i : intent) : bool :=
  match i with
  | CREATE_METRIC | CREATE_DATA | CREATE_STATUS | CREATE_BASE => true
  | _ => false
  end.

Definition is_unknown (i : intent) : bool :=
  match i with unknown => true | _ => false end.

(** A line appended to [log_display]: the echo of the command, or a
    message of [sys_log] with its colour. *)
Inductive log_line : Type :=
| Human (raw_text : string)
| System (msg color : string).

Definition success_color : string := "#10B981".
Definition danger_color : string := "#EF4444".

(** The state of the window that the interpreter reads and writes. *)
Record NeuroShellOS : Type := mk_shell {
  registry : gmap string element;
  log_display : list log_line
}.

(** The state [__init__] leaves. *)
Definition init : NeuroShellOS :=
  mk_shell ∅ [System "Kernel Online. Semantic Disambiguator Active." success_color].

Definition sys_log (msg color : string) (self : NeuroShellOS) : NeuroShellOS :=
  mk_shell (registry self) (log_display self ++ [System msg color]).

(** Truth value of [target_id]: [None] and the empty string are false. *)
Definition truthy (tid : option string) : bool :=
  match tid with
  | Some (String _ _) => true
  | _ => false
  end.

(** [tid in self.registry] *)
Definition in_registry (tid : option string) (reg : gmap string element) : bool :=
  match tid with
  | Some k => bool_decide (is_Some (reg !! k))
  | None => false
  end.

(** [self.registry[tid]] *)
Definition getitem (reg : gmap string element) (tid : option string) : result element :=
  match tid with
  | Some k => match reg !! k with Some el => Ok el | None => Raise KeyError end
  | None => Raise KeyError
  end.

(** The text of [tid] inside an f-string. *)
Definition fmt (tid : option string) : string :=
  match tid with Some k => k | None => "None" end.

(** [eid = f'node-{str(uuid.uuid4())[:4]}'] *)
Definition new_eid (uuid4 : Z) : string :=
  "node-" +:+ String.substring 0 4 (uuid_str uuid4).

(** The classification of [process_intent] (DISAMBIGUATION LOGIC). *)
Definition classify (text : string) (target_id : option string) : intent :=
  let is_explicit_interact := any_in ["toggle"; "switch"; "set node"; "update node"] text in
  let is_append_interact :=
    contains "add item" text || contains "add to" text ||
    contains "log" text || contains "append" text in
  let intent :=
    if truthy target_id &&
       (is_explicit_interact || is_append_interact || contains "node-" text)
    then
      if any_in ["toggle"; "switch"] text then INTERACT_TOGGLE
      else if any_in ["append"; "item"; "put"; "insert"; "log"; "add to"] text
      then INTERACT_APPEND
      else if any_in ["update"; "set"; "push"; "change"] text then INTERACT_NUMERIC
      else unknown
    else unknown in
  if is_unknown intent && any_in ["add"; "new"; "create"; "make"] text then
    if any_in ["progress"; "bar"; "percent"] text then CREATE_METRIC
    else if any_in ["data"; "list"; "view"; "logs"] text then CREATE_DATA
    else if any_in ["status"; "indicator"; "light"; "toggle"] text then CREATE_STATUS
    else CREATE_BASE
  else intent.

(** The label of [process_intent]. *)
Definition extract_label (raw_text : string) : result string :=
  let quoted := findall_quoted raw_text in
  let label := match quoted with q :: _ => q | [] => EmptyString end in
  label ← match label with
           | EmptyString =>
               match search_connective raw_text with
               | Some g => Ok (strip g)
               | None =>
                   match last (split raw_text) with
                   | Some t => Ok (capitalize t)
                   | None => Raise IndexError
                   end
               end
           | _ => Ok label
           end ;
  Ok (strip (sub_id label)).

(** The element the CREATE branch of [execute_intent] constructs. *)
Definition construct (intent : intent) (eid' label : string) : element :=
  match intent with
  | CREATE_METRIC => MetricElement.init eid' "metric_display" label
  | CREATE_DATA => DataViewElement.init eid' "data_view" label
  | CREATE_STATUS => StatusElement.init eid' "status_indicator" label
  | _ => BaseSemanticElement.init eid' "primary_action" label
  end.

(** The branches of [execute_intent]: the values of [success] and [msg]
    and the registry they leave. *)
Definition run_intent (intent : intent) (tid : option string) (label raw : string)
    (uuid4 : Z) (reg : gmap string element)
  : result (bool * string * gmap string element) :=
  match intent with
  | CREATE_METRIC | CREATE_DATA | CREATE_STATUS | CREATE_BASE =>
      let eid := new_eid uuid4 in
      let el := construct intent eid label in
      Ok (true, "Created " +:+ role el +:+ " (" +:+ eid +:+ ")", <[eid := el]> reg)
  | INTERACT_NUMERIC =>
      target ← getitem reg tid ;
      if has_capability "numeric_update" target then
        match search_int (remove_all (fmt tid) raw) with
        | Some digits =>
            val ← int digits ;
            let target := MetricElement.update_view target val in
            let value := match state target with MetricState v => v | _ => 0%Z end in
            Ok (true, "Set " +:+ fmt tid +:+ " to " +:+ str_of_int value +:+ "%",
                <[fmt tid := target]> reg)
        | None => Ok (false, EmptyString, reg)
        end
      else Ok (false, "Capability Error: " +:+ fmt tid +:+ " is not a metric.", reg)
  | INTERACT_TOGGLE =>
      target ← getitem reg tid ;
      if has_capability "toggle_status" target then
        let target := StatusElement.update_view (StatusElement.flip_active target) in
        Ok (true, "Toggled " +:+ fmt tid, <[fmt tid := target]> reg)
      else Ok (false, EmptyString, reg)
  | INTERACT_APPEND =>
      target ← getitem reg tid ;
      if has_capability "list_append" target then
        let target := DataViewElement.update_view target (Some label) in
        Ok (true, "Logged data to " +:+ fmt tid, <[fmt tid := target]> reg)
      else Ok (false, "Capability Error: " +:+ fmt tid +:+ " is not a data list.", reg)
  | unknown => Ok (false, EmptyString, reg)
  end.

Definition execute_intent (intent : intent) (tid : option string) (label raw : string)
    (uuid4 : Z) (self : NeuroShellOS) : result NeuroShellOS :=
  if truthy tid && negb (in_registry tid (registry self)) then
    Ok (sys_log ("Error: Node '" +:+ fmt tid +:+ "' not found.") danger_color self)
  else
    match run_intent intent tid label raw uuid4 (registry self) with
    | Raise e => Raise e
    | Ok (success, msg, reg) =>
        let self := mk_shell reg (log_display self) in
        if success then Ok (sys_log msg success_color self)
        else Ok (sys_log (match msg with
                          | EmptyString => "Interpreter: Semantic Mismatch."
                          | _ => msg
                          end) danger_color self)
    end.

(** [process_intent] on the text of the input line; [uuid4] is the value
    [uuid.uuid4()] returns if the command calls it. *)
Definition process_intent (uuid4 : Z) (input_text : string) (self : NeuroShellOS)
  : result NeuroShellOS :=
  let raw_text := strip input_text in
  match raw_text with
  | EmptyString => Ok self
  | _ =>
      let self := mk_shell (registry self) (log_display self ++ [Human raw_text]) in
      let text := lower raw_text in
      let target_id := search_id text in
      let intent := classify text target_id in
      label ← extract_label raw_text ;
      execute_intent intent target_id label text uuid4 self
  end.

(** A session: the commands are processed one after the other; each
    comes with the value [uuid.uuid4()] would return for it. *)
Definition run (cmds : list (Z * string)) (self : NeuroShellOS) : result NeuroShellOS :=
  fold_left (fun r c => st ← r ; process_intent (fst c) (snd c) st) cmds (Ok self).

(** ** Notions and sample states used by the statements *)

(** The digits a numeric interaction hands to [int], when it gets that
    far: the target is stored and is a metric, and the text without the
    id holds a token. *)
Definition numeric_token (intent : intent) (tid : option string) (raw : string)
    (reg : gmap string element) : option string :=
  match intent, tid with
  | INTERACT_NUMERIC, Some k =>
      match reg !! k with
      | Some target =>
          if has_capability "numeric_update" target
          then search_int (remove_all k raw) else None
      | None => None
      end
  | _, _ => None
  end.

(** A token [int] refuses. *)
Definition oversized (token : option string) : bool :=
  match token with
  | Some digits => (max_str_digits <? String.length digits)%nat
  | None => false
  end.

(** The commands on which [process_intent] raises: numeric interactions
    on a stored metric with a token [int] refuses. *)
Definition raises (input_text : string) (self : NeuroShellOS) : bool :=
  let text := lower (strip input_text) in
  let tid := search_id text in
  oversized (numeric_token (classify text tid) tid text (registry self)).

(** Text within the ASCII range, on which the model of [str] and [re] is
    exact. *)
Definition ascii_text (s : string) : bool :=
  string_forallb (fun c => (N_of_ascii c <? 128)%N) s.

(** [c * n] for a character [c]. *)
Fixpoint replicate_char (n : nat) (c : ascii) : string :=
  match n with
  | O => EmptyString
  | S k => String c (replicate_char k c)
  end.



(** The guard at the head of [execute_intent]. *)
Definition unresolved (tid : option string) (reg : gmap string element) : bool :=
  truthy tid && negb (in_registry tid reg).

(** Two values [uuid.uuid4()] can return; they differ and share their
    four leading hexadecimal digits. *)
Definition uuid_a : Z := 0xabcd0000000040008000000000000000.
Definition uuid_b : Z := 0xabcd1111111141119111111111111111.

(** A command with a token of 4301 digits. *)
Definition oversized_command : string :=
  "set node-ab12 to " +:+ replicate_char 4301 "9".

(** Registries holding one element of a class. *)
Definition metric_shell : NeuroShellOS :=
  mk_shell {[ "node-ab12" := MetricElement.init "node-ab12" "metric_display" "CPU" ]} [].

Definition status_shell : NeuroShellOS :=
  mk_shell {[ "node-ef56" := StatusElement.init "node-ef56" "status_indicator" "Link" ]} [].

Definition data_shell : NeuroShellOS :=
  mk_shell {[ "node-cd34" := DataViewElement.init "node-cd34" "data_view" "Events" ]} [].

(** A session from the initial state and the state it ends in. *)
Definition session_example : list (Z * string) :=
  [(uuid_a, "create a progress bar"); (uuid_b, "set node-abcd to 150")].

Definition session_example_end : NeuroShellOS :=
  mk_shell
    {[ "node-abcd" := mk_element "node-abcd" "metric_display" "Bar" "primary"
                                 (MetricState 100) ]}
    [System "Kernel Online. Semantic Disambiguator Active." success_color;
     Human "create a progress bar";
     System "Created metric_display (node-abcd)" success_color;
     Human "set node-abcd to 150";
     System "Set node-abcd to 100%" success_color].

(** [metric_shell] after a status indicator has been created and toggled. *)
Definition metric_shell_end : NeuroShellOS :=
  mk_shell
    {[ "node-ab12" := MetricElement.init "node-ab12" "metric_display" "CPU";
       "node-abcd" := mk_element "node-abcd" "status_indicator" "Light" "primary"
                                 (StatusState true) ]}
    [Human "create a status light";
     System "Created status_indicator (node-abcd)" success_color;
     Human "toggle node-abcd";
     System "Toggled node-abcd" success_color].



(** [status_shell] after a toggle of its indicator. *)
Definition status_shell_toggled : NeuroShellOS :=
  mk_shell {[ "node-ef56" :=
                mk_element "node-ef56" "status_indicator" "Link" "primary"
                           (StatusState true) ]}
           [System "Toggled node-ef56" success_color].

(** [l[-n:]] for [n > 0]: the last [n] entries of [l], all of [l] when it
    has fewer. *)
Definition most_recent {A : Type} (n : nat) (l : list A) : list A :=
  skipn (length l - n) l.

Definition nonempty (s : string) : bool :=
  match s with EmptyString => false | _ => true end.

(** The items of a data view after the values [vs] have been passed to
    [update_view] one after the other. *)
Definition appends (items : list string) (vs : list string) : list string :=
  fold_left (fun items v => DataViewElement.update_items items (Some v)) vs items.

(** The element after the commands of a session have appended [vs]. *)
Definition appended (el : element) (vs : list string) : element :=
  fold_left (fun el v => DataViewElement.update_view el (Some v)) vs el.

(** The intent [process_intent] computes from the input line. *)
Definition intent_of (input_text : string) : intent :=
  let text := lower (strip input_text) in
  classify text (search_id text).

















(** ** Notions used by the further properties *)

(** A line that [process_intent] does not drop. *)
Definition nonblank (input_text : string) : bool := nonempty (strip input_text).

(** Every stored element satisfies [P], a property of an id and the
    element stored under it. *)
Definition registry_forall (P : string -> element -> Prop) (self : NeuroShellOS) : Prop :=
  forall k el, registry self !! k = Some el -> P k el.

(** The key of an entry matches the id pattern and is the [eid] of the
    element. *)
Definition id_well_formed (k : string) (el : element) : Prop :=
  fullmatch_id k = true /\ eid el = k.

(** The bounds of [SDK_SCHEMA] on the state of an element. *)
Definition within_constraints (el : element) : Prop :=
  String.length (title el) <= SDK_SCHEMA.max_label_length /\
  match state el with
  | MetricState value =>
      (fst SDK_SCHEMA.metric_range <= value <= snd SDK_SCHEMA.metric_range)%Z
  | DataViewState items => length items <= SDK_SCHEMA.max_data_items
  | _ => True
  end.

(** The state a constructor gives to an element of the class of [el]. *)
Definition initial_state (s : class_state) : class_state :=
  match s with
  | BaseState => BaseState
  | MetricState _ => MetricState 0
  | DataViewState _ => DataViewState []
  | StatusState _ => StatusState false
  end.

(** Two elements are the same object in two states: all that a
    constructor fixes is equal. *)
Definition same_identity (el el' : element) : Prop :=
  eid el' = eid el /\ role el' = role el /\ title el' = title el /\
  color el' = color el /\ capabilities el' = capabilities el.

(** The 16 leading bits of a 128-bit UUID. *)
Definition leading_bits (u : Z) : Z := Z.land (Z.shiftr u 112) 65535.

(** [apply_base_style]: the style sheet it sets, with the colour token of
    [state["color"]] as background and the primary colour when the token
    table has no such entry. *)
Definition apply_base_style (self : element) : string :=
  let bg := default "#3B82F6" (SDK_SCHEMA.token (color self)) in
  "BaseSemanticElement { background-color: " +:+ bg +:+
  "; border-radius: 12px; padding: 10px; margin: 5px; " +:+
  "border: 1px solid rgba(255,255,255,0.1); }".

(** * Properties *)

Ltac invert_outcome H := inversion H; subst; clear H.

(** ** Generated ids *)

Lemma hex_digit_is_hex (n : Z) :
  (0 <= n < 16)%Z -> is_hex_lower (hex_digit n) = true.
Proof.
  intros Hn.
  assert (Hcases : In n [0; 1; 2; 3; 4; 5; 6; 7; 8; 9; 10; 11; 12; 13; 14; 15]%Z).
  { simpl. lia. }
  simpl in Hcases.
  repeat (destruct Hcases as [<- | Hcases]; [reflexivity |]).
  contradiction.
Qed.

Lemma nibble_range (u k : Z) : (0 <= Z.land (Z.shiftr u k) 15 < 16)%Z.
Proof.
  change 15%Z with (Z.ones 4). rewrite Z.land_ones by lia.
  apply Z.mod_pos_bound. reflexivity.
Qed.

(** The id pattern accepts the prefix followed by any four characters of
    the class. *)
Lemma fullmatch_id_intro (a b c d : ascii) :
  is_hex_lower a = true -> is_hex_lower b = true ->
  is_hex_lower c = true -> is_hex_lower d = true ->
  fullmatch_id ("node-" +:+ String a (String b (String c (String d EmptyString)))) = true.
Proof.
  intros Ha Hb Hc Hd. unfold fullmatch_id, SDK_SCHEMA.id_format_at.
  simpl. rewrite Ha, Hb, Hc, Hd. cbn [andb].
  apply String.eqb_refl.
Qed.

(** The four characters the id takes from the UUID are its four leading
    hexadecimal digits. *)
Lemma new_eid_digits (u : Z) :
  new_eid u =
  "node-" +:+ String (hex_digit (Z.land (Z.shiftr u 124) 15))
             (String (hex_digit (Z.land (Z.shiftr u 120) 15))
             (String (hex_digit (Z.land (Z.shiftr u 116) 15))
             (String (hex_digit (Z.land (Z.shiftr u 112) 15)) EmptyString))).
Proof. reflexivity. Qed.

Lemma new_eid_fullmatch (u : Z) : fullmatch_id (new_eid u) = true.
Proof.
  rewrite new_eid_digits.
  apply fullmatch_id_intro; apply hex_digit_is_hex, nibble_range.
Qed.

(** ** The executor *)

Lemma execute_intent_unresolved intent tid label raw u self :
  unresolved tid (registry self) = true ->
  execute_intent intent tid label raw u self =
  Ok (sys_log ("Error: Node '" +:+ fmt tid +:+ "' not found.") danger_color self).
Proof. unfold unresolved, execute_intent. intros ->. reflexivity. Qed.

Lemma execute_intent_create intent tid label raw u self :
  is_create intent = true ->
  unresolved tid (registry self) = false ->
  execute_intent intent tid label raw u self =
  Ok (mk_shell (<[new_eid u := construct intent (new_eid u) label]> (registry self))
        (log_display self ++
         [System ("Created " +:+ role (construct intent (new_eid u) label) +:+
                  " (" +:+ new_eid u +:+ ")") success_color])).
Proof.
  unfold unresolved, execute_intent. intros Hc ->.
  destruct intent; try discriminate Hc; reflexivity.
Qed.

Lemma substring_length_le (n : nat) (s : string) :
  String.length (String.substring 0 n s) <= n.
Proof.
  revert s. induction n as [|n IH]; intros [|c s]; simpl; try lia.
  specialize (IH s). lia.
Qed.

Lemma construct_fields intent e label :
  eid (construct intent e label) = e /\
  title (construct intent e label) = String.substring 0 32 label /\
  color (construct intent e label) = "primary".
Proof. destruct intent; repeat split. Qed.

Lemma getitem_Ok reg tid el :
  getitem reg tid = Ok el -> exists k, tid = Some k /\ reg !! k = Some el.
Proof.
  destruct tid as [k|]; simpl; [|discriminate].
  destruct (reg !! k) as [el'|] eqn:E; [|discriminate].
  intros [= <-]. eauto.
Qed.

(** An update of the entry of a stored id changes no other entry and not
    the set of ids. *)
Lemma insert_present_frame (reg : gmap string element) k el el' :
  reg !! k = Some el ->
  dom (<[k := el']> reg) = dom reg /\
  forall j, j <> k -> <[k := el']> reg !! j = reg !! j.
Proof.
  intros Hk. split.
  - apply dom_insert_lookup_L. by exists el.
  - intros j Hj. by rewrite lookup_insert_ne.
Qed.

Lemma run_intent_frame intent tid label raw u reg success msg reg' :
  is_create intent = false ->
  run_intent intent tid label raw u reg = Ok (success, msg, reg') ->
  dom reg' = dom reg /\
  forall j, tid <> Some j -> reg' !! j = reg !! j.
Proof.
  intros Hc Hrun.
  destruct intent; try discriminate Hc; simpl in Hrun.
  - invert_outcome Hrun. done.
  - destruct (getitem reg tid) as [target|] eqn:Hg; [|discriminate].
    apply getitem_Ok in Hg as (k & -> & Hk). simpl in Hrun.
    destruct (has_capability _ target); invert_outcome Hrun; [|done].
    destruct (insert_present_frame reg k target
                (StatusElement.update_view (StatusElement.flip_active target)) Hk)
      as [Hd Hf].
    split; [done|]. intros j Hj. apply Hf. congruence.
  - destruct (getitem reg tid) as [target|] eqn:Hg; [|discriminate].
    apply getitem_Ok in Hg as (k & -> & Hk). simpl in Hrun.
    destruct (has_capability _ target); invert_outcome Hrun; [|done].
    destruct (insert_present_frame reg k target
                (DataViewElement.update_view target (Some label)) Hk) as [Hd Hf].
    split; [done|]. intros j Hj. apply Hf. congruence.
  - destruct (getitem reg tid) as [target|] eqn:Hg; [|discriminate].
    apply getitem_Ok in Hg as (k & -> & Hk). simpl in Hrun.
    destruct (has_capability _ target); [|invert_outcome Hrun; done].
    destruct (search_int _) as [ds|]; [|invert_outcome Hrun; done].
    destruct (int ds) as [val|]; [|discriminate]. simpl in Hrun.
    invert_outcome Hrun.
    destruct (insert_present_frame reg k target
                (MetricElement.update_view target val) Hk) as [Hd Hf].
    split; [done|]. intros j Hj. apply Hf. congruence.
Qed.

Lemma execute_intent_frame intent tid label raw u self self' :
  execute_intent intent tid label raw u self = Ok self' ->
  is_create intent = false ->
  dom (registry self') = dom (registry self) /\
  forall j, tid <> Some j -> registry self' !! j = registry self !! j.
Proof.
  unfold execute_intent. intros Hex Hc.
  destruct (truthy tid && negb (in_registry tid (registry self))).
  { injection Hex as <-. done. }
  destruct (run_intent intent tid label raw u (registry self))
    as [[[success msg] reg]|] eqn:Hrun; [|discriminate].
  apply run_intent_frame in Hrun; [|done].
  destruct success; injection Hex as <-; exact Hrun.
Qed.

Lemma execute_intent_keeps_ids intent tid label raw u self self' k :
  execute_intent intent tid label raw u self = Ok self' ->
  is_Some (registry self !! k) -> is_Some (registry self' !! k).
Proof.
  intros Hex Hk.
  destruct (is_create intent) eqn:Hc.
  - destruct (unresolved tid (registry self)) eqn:Hu.
    + rewrite execute_intent_unresolved in Hex by done.
      injection Hex as <-. done.
    + rewrite execute_intent_create in Hex by done.
      injection Hex as <-. simpl.
      rewrite lookup_insert_is_Some. destruct (decide (new_eid u = k)); auto.
  - apply execute_intent_frame in Hex as [Hd _]; [|done].
    apply elem_of_dom. rewrite Hd. by apply elem_of_dom.
Qed.

(** The interaction intents never come without a target id. *)
Lemma classify_interact_truthy text tid :
  is_create (classify text tid) = false ->
  is_unknown (classify text tid) = false ->
  truthy tid = true.
Proof.
  unfold classify. destruct (truthy tid); [done|]. cbn [andb is_unknown].
  repeat (match goal with |- context [if ?b then _ else _] => destruct b end);
    cbn [is_create is_unknown]; discriminate.
Qed.

Lemma run_intent_cases intent tid label raw u reg :
  (is_create intent = false -> is_unknown intent = false ->
   in_registry tid reg = true) ->
  if oversized (numeric_token intent tid raw reg)
  then run_intent intent tid label raw u reg = Raise ValueError
  else exists outcome, run_intent intent tid label raw u reg = Ok outcome.
Proof.
  intros Hin. unfold numeric_token.
  destruct intent; simpl; eauto;
    try (destruct tid; simpl; eauto; fail);
    specialize (Hin eq_refl eq_refl);
    (destruct tid as [k|]; [|discriminate Hin]); simpl in Hin;
    apply bool_decide_eq_true in Hin as [el Hel]; simpl; rewrite Hel; simpl.
  - destruct (has_capability _ el); simpl; eauto.
  - destruct (has_capability _ el); simpl; eauto.
  - destruct (has_capability _ el); simpl; eauto.
    destruct (search_int (remove_all k raw)) as [ds|]; simpl; eauto.
    unfold int. destruct (max_str_digits <? String.length ds)%nat; simpl; eauto.
Qed.

Lemma execute_intent_cases intent tid label raw u self :
  (is_create intent = false -> is_unknown intent = false -> truthy tid = true) ->
  if oversized (numeric_token intent tid raw (registry self))
  then execute_intent intent tid label raw u self = Raise ValueError
  else exists self', execute_intent intent tid label raw u self = Ok self'.
Proof.
  intros Ht. unfold execute_intent.
  destruct (truthy tid) eqn:Htid; simpl.
  - destruct (in_registry tid (registry self)) eqn:Hin; simpl.
    + pose proof (run_intent_cases intent tid label raw u (registry self)
                    (fun _ _ => Hin)) as Hrun.
      destruct (oversized _); [by rewrite Hrun|].
      destruct Hrun as [[[success msg] reg] ->]. destruct success; eauto.
    + replace (oversized (numeric_token intent tid raw (registry self))) with false;
        [eauto|].
      unfold numeric_token. destruct intent; try done. destruct tid as [k|]; [|done].
      simpl in Hin. apply bool_decide_eq_false in Hin.
      destruct (registry self !! k) eqn:E; [|done]. destruct Hin. eauto.
  - assert (Hnum : numeric_token intent tid raw (registry self) = None).
    { unfold numeric_token. destruct intent; try done.
      specialize (Ht eq_refl eq_refl). congruence. }
    rewrite Hnum. simpl.
    destruct (run_intent intent tid label raw u (registry self))
      as [[[success msg] reg]|e] eqn:Hrun.
    + destruct success; eauto.
    + exfalso. destruct intent; simpl in Hrun; try discriminate Hrun;
        specialize (Ht eq_refl eq_refl); congruence.
Qed.

Lemma execute_intent_logs_once intent tid label raw u self self' :
  execute_intent intent tid label raw u self = Ok self' ->
  exists msg color, log_display self' = log_display self ++ [System msg color].
Proof.
  unfold execute_intent.
  destruct (truthy tid && negb (in_registry tid (registry self))).
  { intros [= <-]. simpl. eauto. }
  destruct (run_intent intent tid label raw u (registry self))
    as [[[success msg] reg]|]; [|discriminate].
  destruct success; intros [= <-]; simpl; eauto.
Qed.

(** ** The text pipeline never raises *)

Lemma lstrip_head s c r : lstrip s = String c r -> is_space c = false.
Proof.
  induction s as [|a s IH]; simpl; [discriminate|].
  destruct (is_space a) eqn:Ha; [exact IH|].
  intros [= <- _]. exact Ha.
Qed.

Lemma rstrip_head s c r : rstrip s = String c r -> exists s', s = String c s'.
Proof.
  destruct s as [|a s]; simpl; [discriminate|].
  destruct (rstrip s); [destruct (is_space a)|]; intros [= <- _]; eauto.
Qed.

Lemma strip_head s c r : strip s = String c r -> is_space c = false.
Proof.
  unfold strip. intros H. apply rstrip_head in H as [s' H].
  by apply lstrip_head in H.
Qed.

Lemma split_aux_open_last s t : is_Some (last (split_aux (Some t) s)).
Proof.
  revert t. induction s as [|c s IH]; intros t; simpl; [eauto|].
  destruct (is_space c); [|apply IH].
  rewrite last_cons. destruct (last (split_aux None s)); eauto.
Qed.

Lemma split_last s c r :
  s = String c r -> is_space c = false -> is_Some (last (split s)).
Proof.
  intros -> Hc. unfold split. simpl. rewrite Hc. apply split_aux_open_last.
Qed.

Lemma extract_label_total raw_text c r :
  raw_text = String c r -> is_space c = false ->
  exists label, extract_label raw_text = Ok label.
Proof.
  intros Hs Hc. unfold extract_label.
  destruct (split_last raw_text c r Hs Hc) as [t Ht].
  destruct (findall_quoted raw_text) as [|[|q0 q] ?]; simpl;
    try (by eauto);
    destruct (search_connective raw_text); simpl; try rewrite Ht; simpl; eauto.
Qed.

Lemma process_intent_cases u input_text self c r :
  strip input_text = String c r ->
  if raises input_text self
  then process_intent u input_text self = Raise ValueError
  else exists self' msg color,
         process_intent u input_text self = Ok self' /\
         log_display self' =
           log_display self ++ [Human (strip input_text); System msg color].
Proof.
  intros Hs. unfold process_intent, raises. rewrite Hs.
  destruct (extract_label_total (String c r) c r eq_refl (strip_head _ _ _ Hs))
    as [label ->]. simpl.
  set (text := lower (String c r)).
  set (self1 := mk_shell _ _).
  pose proof (execute_intent_cases (classify text (search_id text)) (search_id text)
                label text u self1 (classify_interact_truthy _ _)) as Hex.
  change (registry self1) with (registry self) in Hex.
  destruct (oversized _); [exact Hex|].
  destruct Hex as [self' Hex].
  exists self'. destruct (execute_intent_logs_once _ _ _ _ _ _ _ Hex) as (msg & color & Hlog).
  exists msg, color. split; [exact Hex|].
  rewrite Hlog. unfold self1. simpl. by rewrite <- app_assoc.
Qed.

Lemma process_intent_raises u input_text self e :
  process_intent u input_text self = Raise e ->
  e = ValueError /\ raises input_text self = true.
Proof.
  intros Hr. destruct (strip input_text) as [|c r] eqn:Hs.
  - unfold process_intent in Hr. rewrite Hs in Hr. discriminate Hr.
  - pose proof (process_intent_cases u input_text self c r Hs) as Hc.
    destruct (raises input_text self).
    + rewrite Hc in Hr. by injection Hr as <-.
    + destruct Hc as (? & ? & ? & Hc & _). congruence.
Qed.

(** ** Claims on the executor *)

Lemma new_eid_suffix (u : Z) :
  String.substring 5 4 (new_eid u) = String.substring 0 4 (uuid_str u).
Proof. reflexivity. Qed.

(** C1 (as stated, refuted).  Two commands of one session, with two
    different values of [uuid.uuid4()], are given the same id: the id
    generated for the second creation is already stored in the registry,
    and the creation replaces the entry instead of adding one. *)
Lemma created_id_repeats :
  is_uuid4 uuid_a = true /\ is_uuid4 uuid_b = true /\ uuid_a <> uuid_b /\
  exists self1 self2,
    process_intent uuid_a "create a progress bar" init = Ok self1 /\
    is_Some (registry self1 !! new_eid uuid_b) /\
    process_intent uuid_b "create a status light" self1 = Ok self2 /\
    dom (registry self2) = dom (registry self1).
Proof.
  split; [reflexivity|]. split; [reflexivity|]. split; [discriminate|].
  eexists. eexists.
  split; [vm_compute; reflexivity|].
  split; [vm_compute; eauto|].
  split; [vm_compute; reflexivity|].
  vm_compute. reflexivity.
Qed.

(** C1 (amended).  A creation that reaches the CREATE branch always
    produces an id that matches the id pattern, whatever the UUID, and
    stores the new element under it; the id is new to the registry, which
    then grows by this one id, whenever no stored id ends in the four
    leading hexadecimal digits of the UUID. *)
Theorem created_id_matches_pattern intent tid label raw u self :
  is_create intent = true ->
  unresolved tid (registry self) = false ->
  fullmatch_id (new_eid u) = true /\
  exists self' el,
    execute_intent intent tid label raw u self = Ok self' /\
    registry self' !! new_eid u = Some el /\ eid el = new_eid u /\
    ((forall k, is_Some (registry self !! k) ->
                String.substring 5 4 k <> String.substring 0 4 (uuid_str u)) ->
     registry self !! new_eid u = None /\
     dom (registry self') = {[ new_eid u ]} ∪ dom (registry self) /\
     size (registry self') = S (size (registry self))).
Proof.
  intros Hc Hu. split; [apply new_eid_fullmatch|].
  rewrite (execute_intent_create _ _ _ _ _ _ Hc Hu).
  eexists. exists (construct intent (new_eid u) label).
  split; [reflexivity|]. simpl.
  split; [apply lookup_insert_eq|].
  split; [apply construct_fields|].
  intros Hfresh.
  assert (Hnone : registry self !! new_eid u = None).
  { destruct (registry self !! new_eid u) eqn:E; [|done].
    exfalso. apply (Hfresh (new_eid u)); [eauto|apply new_eid_suffix]. }
  split; [exact Hnone|]. split; [apply dom_insert_L|].
  by apply map_size_insert_None.
Qed.

Lemma created_id_matches_pattern_witness :
  fullmatch_id (new_eid uuid_a) = true /\
  exists self' el,
    execute_intent CREATE_METRIC None "CPU Load" "new bar" uuid_a init = Ok self' /\
    registry self' !! new_eid uuid_a = Some el /\ eid el = new_eid uuid_a /\
    ((forall k, is_Some (registry init !! k) ->
                String.substring 5 4 k <> String.substring 0 4 (uuid_str uuid_a)) ->
     registry init !! new_eid uuid_a = None /\
     dom (registry self') = {[ new_eid uuid_a ]} ∪ dom (registry init) /\
     size (registry self') = S (size (registry init))).
Proof.
  apply (created_id_matches_pattern CREATE_METRIC None "CPU Load" "new bar" uuid_a init);
    reflexivity.
Defined.

(** C4 (as stated, refuted).  A command classified as a creation that
    names an id which is not in the registry creates nothing: the
    executor reports the missing node. *)
Lemma create_with_unknown_target_fails :
  classify (lower "create a card for node-ab12")
           (search_id (lower "create a card for node-ab12")) = CREATE_BASE /\
  process_intent uuid_a "create a card for node-ab12" init =
  Ok (mk_shell ∅ (log_display init ++
                  [Human "create a card for node-ab12";
                   System "Error: Node 'node-ab12' not found." danger_color])).
Proof. split; vm_compute; reflexivity. Qed.

(** C4 (amended).  A creation intent whose target id is absent or
    resolves in the registry always succeeds: the element of the class
    of the intent is constructed with the label cut to 32 characters as
    its title and stored under the new id, and the success message names
    its role and id. *)
Theorem create_succeeds_when_target_resolves intent tid label raw u self :
  is_create intent = true ->
  unresolved tid (registry self) = false ->
  exists el,
    execute_intent intent tid label raw u self =
    Ok (mk_shell (<[new_eid u := el]> (registry self))
          (log_display self ++
           [System ("Created " +:+ role el +:+ " (" +:+ new_eid u +:+ ")")
                   success_color])) /\
    el = construct intent (new_eid u) label /\
    eid el = new_eid u /\
    title el = String.substring 0 SDK_SCHEMA.max_label_length label /\
    String.length (title el) <= SDK_SCHEMA.max_label_length.
Proof.
  intros Hc Hu. exists (construct intent (new_eid u) label).
  split; [by apply execute_intent_create|]. split; [reflexivity|].
  destruct (construct_fields intent (new_eid u) label) as (He & Ht & _).
  split; [exact He|]. split; [exact Ht|].
  rewrite Ht. apply substring_length_le.
Qed.

Lemma create_succeeds_when_target_resolves_witness :
  exists el,
    execute_intent CREATE_DATA None
      "a label of more than thirty-two characters" "new list" uuid_a init =
    Ok (mk_shell (<[new_eid uuid_a := el]> (registry init))
          (log_display init ++
           [System ("Created " +:+ role el +:+ " (" +:+ new_eid uuid_a +:+ ")")
                   success_color])) /\
    el = construct CREATE_DATA (new_eid uuid_a)
           "a label of more than thirty-two characters" /\
    eid el = new_eid uuid_a /\
    title el = String.substring 0 SDK_SCHEMA.max_label_length
                 "a label of more than thirty-two characters" /\
    String.length (title el) <= SDK_SCHEMA.max_label_length.
Proof.
  apply (create_succeeds_when_target_resolves CREATE_DATA None
           "a label of more than thirty-two characters" "new list" uuid_a init);
    reflexivity.
Defined.

(** C5 (as stated, refuted).  A command classified as unknown that names
    an id which is not in the registry is reported as a missing node, not
    as a semantic mismatch. *)
Lemma unknown_with_unknown_target_reports_not_found :
  classify (lower "hello node-ab12") (search_id (lower "hello node-ab12")) = unknown /\
  process_intent uuid_a "hello node-ab12" init =
  Ok (mk_shell ∅ (log_display init ++
                  [Human "hello node-ab12";
                   System "Error: Node 'node-ab12' not found." danger_color])).
Proof. split; vm_compute; reflexivity. Qed.

(** C5 (amended).  The unknown intent never changes the registry and
    always reports one failure: the generic semantic mismatch when the
    target id is absent or resolves, the missing node when the target id
    is not in the registry. *)
Theorem unknown_reports_failure tid label raw u self :
  execute_intent unknown tid label raw u self =
  Ok (mk_shell (registry self)
        (log_display self ++
         [System (if unresolved tid (registry self)
                  then "Error: Node '" +:+ fmt tid +:+ "' not found."
                  else "Interpreter: Semantic Mismatch.") danger_color])).
Proof.
  unfold execute_intent, unresolved.
  destruct (truthy tid && negb (in_registry tid (registry self))); reflexivity.
Qed.

(** C6 (the code at the failing input).  A toggle of a metric, which
    lacks [toggle_status], leaves the registry as it is but is reported
    as the generic semantic mismatch, where the sibling branches for the
    append and numeric interactions report a capability error. *)
Theorem toggle_capability_mismatch_is_generic :
  process_intent uuid_a "toggle node-ab12" metric_shell =
  Ok (mk_shell (registry metric_shell)
        [Human "toggle node-ab12";
         System "Interpreter: Semantic Mismatch." danger_color]) /\
  process_intent uuid_a "append 'x' node-ab12" metric_shell =
  Ok (mk_shell (registry metric_shell)
        [Human "append 'x' node-ab12";
         System "Capability Error: node-ab12 is not a data list." danger_color]) /\
  process_intent uuid_a "set node-ef56 to 5" status_shell =
  Ok (mk_shell (registry status_shell)
        [Human "set node-ef56 to 5";
         System "Capability Error: node-ef56 is not a metric." danger_color]).
Proof. repeat split; vm_compute; reflexivity. Qed.

(** What a toggle does to a status indicator: [active] is flipped and the
    success is reported. *)
Lemma toggle_flips_active k target active label raw u self :
  registry self !! k = Some target ->
  state target = StatusState active ->
  execute_intent INTERACT_TOGGLE (Some k) label raw u self =
  Ok (mk_shell
        (<[k := mk_element (eid target) (role target) (title target) (color target)
                  (StatusState (negb active))]> (registry self))
        (log_display self ++ [System ("Toggled " +:+ k) success_color])).
Proof.
  intros Hk Hs. unfold execute_intent, in_registry.
  rewrite bool_decide_eq_true_2 by eauto. rewrite andb_false_r.
  unfold run_intent. simpl. rewrite Hk. simpl.
  unfold has_capability, capabilities, StatusElement.update_view,
    StatusElement.flip_active.
  rewrite Hs. reflexivity.
Qed.

(** C9.  Whatever the intent, no stored id is removed.  An intent that is
    not a creation (the three interactions and unknown) leaves the set of
    ids as it is and every entry but the one of the target id unchanged;
    a creation changes at most the entry of the generated id. *)
Theorem execute_intent_frame_effect intent tid label raw u self self' :
  execute_intent intent tid label raw u self = Ok self' ->
  (forall k, is_Some (registry self !! k) -> is_Some (registry self' !! k)) /\
  (is_create intent = false ->
     dom (registry self') = dom (registry self) /\
     forall j, tid <> Some j -> registry self' !! j = registry self !! j) /\
  (is_create intent = true ->
     forall j, j <> new_eid u -> registry self' !! j = registry self !! j).
Proof.
  intros Hex. split; [|split].
  - intros k. by apply (execute_intent_keeps_ids _ _ _ _ _ _ _ _ Hex).
  - intros Hc. by apply (execute_intent_frame _ _ _ _ _ _ _ Hex).
  - intros Hc j Hj.
    destruct (unresolved tid (registry self)) eqn:Hu.
    + rewrite execute_intent_unresolved in Hex by done.
      injection Hex as <-. done.
    + rewrite execute_intent_create in Hex by done.
      injection Hex as <-. simpl. by rewrite lookup_insert_ne.
Qed.

Lemma execute_intent_frame_effect_witness :
  (forall k, is_Some (registry status_shell !! k) ->
             is_Some (registry status_shell_toggled !! k)) /\
  (is_create INTERACT_TOGGLE = false ->
     dom (registry status_shell_toggled) = dom (registry status_shell) /\
     forall j, Some "node-ef56" <> Some j ->
               registry status_shell_toggled !! j = registry status_shell !! j) /\
  (is_create INTERACT_TOGGLE = true ->
     forall j, j <> new_eid uuid_a ->
               registry status_shell_toggled !! j = registry status_shell !! j).
Proof.
  apply (execute_intent_frame_effect INTERACT_TOGGLE (Some "node-ef56") "Node-ef56"
           "toggle node-ef56" uuid_a status_shell status_shell_toggled).
  vm_compute. reflexivity.
Defined.

Lemma lstrip_blank s : string_forallb is_space s = true -> lstrip s = EmptyString.
Proof.
  induction s as [|c s IH]; simpl; [done|].
  destruct (is_space c); simpl; [exact IH|discriminate].
Qed.

Lemma strip_blank s : string_forallb is_space s = true -> strip s = EmptyString.
Proof. intros H. unfold strip. by rewrite lstrip_blank. Qed.

Lemma lower_length s : String.length (lower s) = String.length s.
Proof. induction s as [|c s IH]; simpl; [done|]. by rewrite IH. Qed.

Lemma lstrip_length s : String.length (lstrip s) <= String.length s.
Proof.
  induction s as [|c s IH]; simpl; [done|].
  destruct (is_space c); simpl; lia.
Qed.

Lemma rstrip_length s : String.length (rstrip s) <= String.length s.
Proof.
  induction s as [|c s IH]; simpl; [done|].
  destruct (rstrip s); [destruct (is_space c)|]; simpl in *; lia.
Qed.

Lemma strip_length s : String.length (strip s) <= String.length s.
Proof.
  unfold strip. pose proof (rstrip_length (lstrip s)). pose proof (lstrip_length s). lia.
Qed.

Lemma remove_all_aux_length old k s :
  String.length (remove_all_aux old k s) <= String.length s.
Proof.
  revert k. induction s as [|c s IH]; intros k; [done|].
  cbn [remove_all_aux]. destruct k as [|k].
  - destruct (String.prefix old (String c s)); simpl.
    + specialize (IH (String.length old - 1)). lia.
    + specialize (IH 0). lia.
  - specialize (IH k). simpl. lia.
Qed.

Lemma remove_all_length old s : String.length (remove_all old s) <= String.length s.
Proof. destruct old; [done|]. apply remove_all_aux_length. Qed.

Lemma digits_prefix_length s : String.length (digits_prefix s) <= String.length s.
Proof.
  induction s as [|c s IH]; simpl; [done|]. destruct (is_digit c); simpl; lia.
Qed.

Lemma search_int_aux_length prev s ds :
  search_int_aux prev s = Some ds -> String.length ds <= String.length s.
Proof.
  revert prev. induction s as [|c s IH]; intros prev; [discriminate|].
  cbn [search_int_aux].
  assert (Hrec : forall b, search_int_aux b s = Some ds ->
                           String.length ds <= String.length (String c s)).
  { intros b Hb. specialize (IH b Hb). simpl. lia. }
  destruct (negb prev && is_digit c); [|apply Hrec].
  destruct (after_digits (String c s)) as [d|];
    [destruct (is_word d); [apply Hrec|]|];
    intros [= <-]; exact (digits_prefix_length (String c s)).
Qed.

(** A line of at most [max_str_digits] characters holds no token that
    [int] refuses. *)
Lemma short_line_never_raises input_text self :
  String.length input_text <= max_str_digits -> raises input_text self = false.
Proof.
  intros Hlen. unfold raises, numeric_token.
  set (text := lower (strip input_text)).
  destruct (classify text (search_id text)); try done.
  destruct (search_id text) as [k|]; [|done].
  destruct (registry self !! k) as [target|]; [|done].
  destruct (has_capability _ target); [|done].
  destruct (search_int (remove_all k text)) as [ds|] eqn:Hd; [|done].
  simpl. apply Nat.ltb_ge.
  apply search_int_aux_length in Hd.
  pose proof (remove_all_length k text). unfold text in *.
  rewrite lower_length in *. pose proof (strip_length input_text). lia.
Qed.

(** C10 (as stated, refuted).  A non-blank command does not always
    produce a log event: a numeric interaction on a metric with a token
    of 4301 digits makes [int] raise [ValueError] after the echo of the
    command, and no message of [sys_log] follows. *)
Lemma oversized_token_raises :
  nonblank oversized_command = true /\
  ascii_text oversized_command = true /\
  process_intent uuid_a oversized_command metric_shell = Raise ValueError.
Proof. repeat split; vm_compute; reflexivity. Qed.

(** C10 (amended).  An input line that is empty or made of white space
    only is dropped: the state (registry and log) is returned as it was.
    Every other line of text is echoed and then answered by exactly one
    message of [sys_log], unless [int] raises on its token (more than
    4300 digits, which takes a line longer than that): a line of at most
    4300 characters is always echoed and answered by exactly one
    message. *)
Theorem blank_input_is_ignored u input_text self :
  (string_forallb is_space input_text = true ->
   process_intent u input_text self = Ok self) /\
  (ascii_text input_text = true -> strip input_text <> EmptyString ->
   (String.length input_text <= max_str_digits \/ raises input_text self = false) ->
   exists self' msg color,
     process_intent u input_text self = Ok self' /\
     log_display self' =
       log_display self ++ [Human (strip input_text); System msg color]).
Proof.
  split.
  - intros Hb. unfold process_intent. by rewrite strip_blank.
  - intros _ Hne Hshort. destruct (strip input_text) as [|c r] eqn:Hs; [done|].
    pose proof (process_intent_cases u input_text self c r Hs) as Hc.
    assert (Hr : raises input_text self = false).
    { destruct Hshort as [Hlen|Hr]; [by apply short_line_never_raises|exact Hr]. }
    rewrite Hr in Hc. rewrite Hs in Hc. exact Hc.
Qed.

Lemma blank_input_is_ignored_witness :
  process_intent uuid_a "   " metric_shell = Ok metric_shell /\
  exists self' msg color,
    process_intent uuid_a " set node-ab12 to 150 " metric_shell = Ok self' /\
    log_display self' =
      log_display metric_shell ++
      [Human (strip " set node-ab12 to 150 "); System msg color].
Proof.
  split.
  - apply (blank_input_is_ignored uuid_a "   " metric_shell). reflexivity.
  - apply (blank_input_is_ignored uuid_a " set node-ab12 to 150 " metric_shell).
    + reflexivity.
    + vm_compute. discriminate.
    + left. unfold max_str_digits. simpl. lia.
Defined.

(** ** Numeric interactions *)

Lemma update_view_clamps self val :
  exists v, state (MetricElement.update_view self val) = MetricState v /\
            v = Z.max 0 (Z.min 100 val) /\ (0 <= v <= 100)%Z /\
            ((val <= 0)%Z -> v = 0%Z) /\ ((100 <= val)%Z -> v = 100%Z) /\
            ((0 <= val <= 100)%Z -> v = val).
Proof.
  exists (Z.max 0 (Z.min 100 val)). split; [reflexivity|].
  split; [reflexivity|]. lia.
Qed.







(** The scenario of the specification: 150 is stored as 100. *)
Example set_150_stores_100 :
  process_intent uuid_a "set node-ab12 to 150" metric_shell =
  Ok (mk_shell
        {[ "node-ab12" := mk_element "node-ab12" "metric_display" "CPU" "primary"
                                     (MetricState 100) ]}
        [Human "set node-ab12 to 150"; System "Set node-ab12 to 100%" success_color]).
Proof. vm_compute. reflexivity. Qed.

(** At the command line a minus sign is not part of the token: the digits
    after it are read as the value. *)
Example set_minus_5_stores_5 :
  process_intent uuid_a "set node-ab12 to -5" metric_shell =
  Ok (mk_shell
        {[ "node-ab12" := mk_element "node-ab12" "metric_display" "CPU" "primary"
                                     (MetricState 5) ]}
        [Human "set node-ab12 to -5"; System "Set node-ab12 to 5%" success_color]).
Proof. vm_compute. reflexivity. Qed.

(** ** Append interactions *)

Lemma most_recent_length {A : Type} (n : nat) (l : list A) :
  length (most_recent n l) <= n.
Proof. unfold most_recent. rewrite length_skipn. lia. Qed.

Lemma most_recent_short {A : Type} (n : nat) (l : list A) :
  length l <= n -> most_recent n l = l.
Proof. intros H. unfold most_recent. by replace (length l - n) with 0 by lia. Qed.

Lemma most_recent_app {A : Type} (n : nat) (l r : list A) :
  most_recent n (most_recent n l ++ r) = most_recent n (l ++ r).
Proof.
  destruct (decide (length l <= n)) as [Hle|Hgt].
  { by rewrite (most_recent_short n l). }
  unfold most_recent at 1 3. rewrite !length_app.
  unfold most_recent. rewrite length_skipn.
  replace (length l - (length l - n) + length r - n) with (0 + length r) by lia.
  replace (length l + length r - n) with ((length l - n) + length r) by lia.
  rewrite <- !drop_drop. f_equal. rewrite (drop_app_le l r) by lia. reflexivity.
Qed.

Lemma update_items_most_recent items v :
  DataViewElement.update_items items (Some v) =
  most_recent 50 (items ++ if nonempty v then [v] else []).
Proof.
  unfold DataViewElement.update_items, SDK_SCHEMA.max_data_items.
  destruct v as [|c v]; cbn [nonempty]; rewrite ?app_nil_r.
  - destruct (50 <? length items) eqn:E; [reflexivity|].
    apply Nat.ltb_ge in E. by rewrite most_recent_short.
  - destruct (50 <? length (items ++ [String c v])) eqn:E; [reflexivity|].
    apply Nat.ltb_ge in E. by rewrite most_recent_short.
Qed.

Lemma appends_most_recent vs items :
  vs <> [] \/ length items <= 50 ->
  appends items vs = most_recent 50 (items ++ filter (fun v => nonempty v = true) vs).
Proof.
  revert items. induction vs as [|v vs IH]; intros items Hi.
  - destruct Hi as [?|Hi]; [done|]. simpl. rewrite app_nil_r.
    by rewrite most_recent_short.
  - change (appends items (v :: vs))
      with (appends (DataViewElement.update_items items (Some v)) vs).
    rewrite IH.
    + rewrite update_items_most_recent, most_recent_app, <- app_assoc.
      f_equal. f_equal. destruct v; reflexivity.
    + right. rewrite update_items_most_recent. apply most_recent_length.
Qed.

Lemma appended_state el items vs :
  state el = DataViewState items ->
  state (appended el vs) = DataViewState (appends items vs).
Proof.
  revert el items. induction vs as [|v vs IH]; intros el items Hs; [exact Hs|].
  simpl. apply IH. unfold DataViewElement.update_view. by rewrite Hs.
Qed.

(** C3 (as stated, refuted).  An append interaction whose value is the
    empty string is not stored: after the appends of ["a"] and of the
    empty string the items are not the two most recent appended values. *)
Lemma empty_append_is_dropped :
  state (appended (DataViewElement.init "node-cd34" "data_view" "Events")
                  ["a"; EmptyString])
  = DataViewState ["a"] /\
  state (appended (DataViewElement.init "node-cd34" "data_view" "Events")
                  ["a"; EmptyString])
  <> DataViewState (most_recent 50 ["a"; EmptyString]) /\
  extract_label "append to node-cd34" = Ok EmptyString /\
  exists self',
    run [(uuid_a, "log 'a' to node-cd34"); (uuid_a, "append to node-cd34")] data_shell
    = Ok self' /\
    registry self' !! "node-cd34" =
    Some (mk_element "node-cd34" "data_view" "Events" "primary" (DataViewState ["a"])).
Proof.
  split; [reflexivity|]. split; [discriminate|]. split; [reflexivity|].
  eexists. split; vm_compute; reflexivity.
Qed.

(** C3 (amended).  For every data view and every sequence [vs] of values
    appended to it since its construction, the items never exceed 50 and
    are exactly the most recent at most 50 of the non-empty values of
    [vs], in append order, the oldest dropped first; an append of the
    empty string stores nothing. *)
Theorem dataview_items_most_recent eid' role' title' vs :
  exists items,
    state (appended (DataViewElement.init eid' role' title') vs) = DataViewState items /\
    items = most_recent 50 (filter (fun v => nonempty v = true) vs) /\
    length items <= 50.
Proof.
  eexists. split; [by apply appended_state|].
  split; [|rewrite appends_most_recent by (right; simpl; lia); apply most_recent_length].
  by rewrite appends_most_recent by (right; simpl; lia).
Qed.

(** ** Classification *)

(** C8.  The classification reads its second argument only through its
    truth value: on the same normalized text, two target ids that are
    both present or both absent give the same intent. *)
Theorem classify_pure text tid1 tid2 :
  truthy tid1 = truthy tid2 ->
  classify text tid1 = classify text tid2.
Proof. unfold classify. intros ->. reflexivity. Qed.

Lemma classify_pure_witness :
  classify "toggle node-ab12 and node-cd34" (Some "node-ab12") =
  classify "toggle node-ab12 and node-cd34" (Some "node-cd34").
Proof.
  apply (classify_pure "toggle node-ab12 and node-cd34"
           (Some "node-ab12") (Some "node-cd34")).
  reflexivity.
Defined.

(** The intent [process_intent] executes is a function of the input line
    alone: neither the registry, the log nor the UUID is read. *)
Lemma process_intent_intent u input_text self c r :
  strip input_text = String c r ->
  process_intent u input_text self =
  (label ← extract_label (strip input_text) ;
   execute_intent (intent_of input_text) (search_id (lower (strip input_text)))
     label (lower (strip input_text)) u
     (mk_shell (registry self) (log_display self ++ [Human (strip input_text)]))).
Proof. intros Hs. unfold process_intent, intent_of. rewrite Hs. reflexivity. Qed.

(** ** Labels *)

Lemma append_cons (x : ascii) (a b : string) :
  String x a +:+ b = String x (a +:+ b).
Proof. reflexivity. Qed.

Lemma append_nil_r (a : string) : a +:+ EmptyString = a.
Proof. induction a as [|x a IH]; [done|]. by rewrite append_cons, IH. Qed.




Lemma findall_quoted_none s :
  string_forallb (fun c => negb (is_quote c)) s = true -> findall_quoted s = [].
Proof.
  unfold findall_quoted. induction s as [|c s IH]; simpl; [done|].
  intros H. apply andb_true_iff in H as [Hc Hs].
  apply negb_true_iff in Hc. rewrite Hc. by apply IH.
Qed.


(** * Further properties of the code *)

(** ** Sessions *)

Lemma run_nil self : run [] self = Ok self.
Proof. reflexivity. Qed.

Lemma run_raise cmds e :
  fold_left (fun r c => st ← r ; process_intent (fst c) (snd c) st) cmds (Raise e)
  = Raise e.
Proof. induction cmds as [|c cmds IH]; simpl; [done|exact IH]. Qed.

Lemma run_cons c cmds self :
  run (c :: cmds) self = (st ← process_intent (fst c) (snd c) self ; run cmds st).
Proof.
  unfold run. simpl. destruct (process_intent (fst c) (snd c) self); simpl; [done|].
  apply run_raise.
Qed.

(** An invariant of [process_intent] is an invariant of the sessions
    that run to their end. *)
Lemma run_invariant (I : NeuroShellOS -> Prop) :
  (forall u input_text self self',
     I self -> process_intent u input_text self = Ok self' -> I self') ->
  forall cmds self self', I self -> run cmds self = Ok self' -> I self'.
Proof.
  intros Hstep cmds. induction cmds as [|[u line] cmds IH]; intros self self' HI.
  - intros [= <-]. exact HI.
  - rewrite run_cons. simpl.
    destruct (process_intent u line self) as [st|e] eqn:Hst; simpl; [|discriminate].
    apply IH. by apply (Hstep u line self st).
Qed.

Section ElementInvariant.
Variable P : string -> element -> Prop.
Hypothesis P_construct : forall intent u label,
  P (new_eid u) (construct intent (new_eid u) label).
Hypothesis P_metric : forall k el val, P k el -> P k (MetricElement.update_view el val).
Hypothesis P_data : forall k el v, P k el -> P k (DataViewElement.update_view el v).
Hypothesis P_toggle : forall k el, P k el -> P k (StatusElement.flip_active el).

Lemma insert_forall (reg : gmap string element) k el :
  (forall j x, reg !! j = Some x -> P j x) -> P k el ->
  forall j x, <[k := el]> reg !! j = Some x -> P j x.
Proof.
  intros Hreg Hel j x. destruct (decide (k = j)) as [<-|Hne].
  - rewrite lookup_insert_eq. by intros [= <-].
  - rewrite lookup_insert_ne by done. apply Hreg.
Qed.

Lemma run_intent_preserves intent tid label raw u reg success msg reg' :
  (forall j x, reg !! j = Some x -> P j x) ->
  run_intent intent tid label raw u reg = Ok (success, msg, reg') ->
  forall j x, reg' !! j = Some x -> P j x.
Proof.
  intros Hreg Hrun.
  destruct intent; simpl in Hrun.
  1: { invert_outcome Hrun. done. }
  4-7: (invert_outcome Hrun; apply insert_forall; [done|];
        first [ exact (P_construct CREATE_METRIC u label)
              | exact (P_construct CREATE_DATA u label)
              | exact (P_construct CREATE_STATUS u label)
              | exact (P_construct CREATE_BASE u label) ]).
  all: (destruct (getitem reg tid) as [target|] eqn:Hg; [|discriminate];
     apply getitem_Ok in Hg as (k & -> & Hk); simpl in Hrun;
     destruct (has_capability _ target); [|invert_outcome Hrun; done]).
  - invert_outcome Hrun. apply insert_forall; [done|].
    apply P_toggle. by apply Hreg.
  - invert_outcome Hrun. apply insert_forall; [done|].
    apply P_data. by apply Hreg.
  - destruct (search_int _) as [ds|]; [|by invert_outcome Hrun].
    destruct (int ds) as [val|]; [|discriminate]. simpl in Hrun.
    invert_outcome Hrun.
    apply insert_forall; [done|]. apply P_metric. by apply Hreg.
Qed.

Lemma execute_intent_preserves intent tid label raw u self self' :
  registry_forall P self ->
  execute_intent intent tid label raw u self = Ok self' ->
  registry_forall P self'.
Proof.
  unfold registry_forall, execute_intent. intros Hreg Hex.
  destruct (truthy tid && negb (in_registry tid (registry self))).
  { by invert_outcome Hex. }
  destruct (run_intent intent tid label raw u (registry self))
    as [[[success msg] reg]|] eqn:Hrun; [|discriminate].
  pose proof (run_intent_preserves _ _ _ _ _ _ _ _ _ Hreg Hrun) as Hreg'.
  destruct success; by invert_outcome Hex.
Qed.

Lemma process_intent_preserves u input_text self self' :
  registry_forall P self ->
  process_intent u input_text self = Ok self' ->
  registry_forall P self'.
Proof.
  unfold process_intent. intros Hreg.
  destruct (strip input_text) as [|c r]; cbv zeta.
  { intros Heq. by invert_outcome Heq. }
  destruct (extract_label (String c r)) as [label|]; simpl; [|discriminate].
  apply execute_intent_preserves. exact Hreg.
Qed.

Lemma run_preserves cmds self self' :
  registry_forall P self -> run cmds self = Ok self' -> registry_forall P self'.
Proof.
  apply (run_invariant (registry_forall P)).
  intros u line st st'. apply process_intent_preserves.
Qed.
End ElementInvariant.

Lemma update_items_length items new_item :
  length (DataViewElement.update_items items new_item) <= SDK_SCHEMA.max_data_items.
Proof.
  unfold DataViewElement.update_items, SDK_SCHEMA.max_data_items.
  set (l := match new_item with Some (String _ _ as x) => items ++ [x] | _ => items end).
  destruct (50 <? length l) eqn:E.
  - rewrite length_skipn. lia.
  - by apply Nat.ltb_ge in E.
Qed.

(** X1.  Ids of a session: in every session that runs to its end, every
    key of the registry matches the id pattern and is the [eid] of the
    element stored under it. *)
Theorem session_ids_well_formed cmds self self' :
  registry_forall id_well_formed self ->
  run cmds self = Ok self' ->
  registry_forall id_well_formed self'.
Proof.
  apply (run_preserves id_well_formed).
  - intros intent u label. split; [apply new_eid_fullmatch|apply construct_fields].
  - intros k el val H. exact H.
  - intros k el v [H1 H2]. split; [done|].
    unfold DataViewElement.update_view. by destruct (state el).
  - intros k el [H1 H2]. split; [done|].
    unfold StatusElement.flip_active. by destruct (state el).
Qed.

Lemma session_ids_well_formed_witness : registry_forall id_well_formed session_example_end.
Proof.
  apply (session_ids_well_formed session_example init session_example_end).
  - intros k el H. vm_compute in H. discriminate H.
  - vm_compute. reflexivity.
Defined.

(** X2.  Constraints of a session: in every session that runs to its
    end, every stored title has at most 32 characters, every metric value
    lies in [[0,100]] and every data view holds at most 50 items. *)
Theorem session_within_constraints cmds self self' :
  registry_forall (fun _ => within_constraints) self ->
  run cmds self = Ok self' ->
  registry_forall (fun _ => within_constraints) self'.
Proof.
  apply (run_preserves (fun _ => within_constraints)).
  - intros intent u label. unfold within_constraints.
    destruct (construct_fields intent (new_eid u) label) as (_ & -> & _).
    split; [apply substring_length_le|].
    destruct intent; simpl; lia.
  - intros _ el val [Ht _]. split; [exact Ht|]. simpl. lia.
  - intros _ el v [Ht Hs]. unfold DataViewElement.update_view, within_constraints.
    destruct (state el) eqn:E; rewrite ?E; try done.
    split; [exact Ht|]. simpl. apply update_items_length.
  - intros _ el [Ht Hs]. unfold StatusElement.flip_active, within_constraints.
    destruct (state el) eqn:E; rewrite ?E; done.
Qed.

Lemma session_within_constraints_witness :
  registry_forall (fun _ => within_constraints) session_example_end.
Proof.
  apply (session_within_constraints session_example init session_example_end).
  - intros k el H. vm_compute in H. discriminate H.
  - vm_compute. reflexivity.
Defined.

(** X3.  The exceptions of a session: no command raises [KeyError] or
    [IndexError]; the only exception is the [ValueError] of [int], and a
    session whose lines have at most 4300 characters runs to its end. *)
Theorem session_exceptions cmds self :
  (Forall (fun c => String.length (snd c) <= max_str_digits) cmds ->
   exists self', run cmds self = Ok self') /\
  match run cmds self with
  | Ok _ => True
  | Raise e => e = ValueError
  end.
Proof.
  revert self. induction cmds as [|[u line] cmds IH]; intros self.
  - split; [by exists self|done].
  - rewrite run_cons. simpl fst. simpl snd.
    destruct (process_intent u line self) as [st|e0] eqn:Hst; simpl.
    + split; [|apply IH]. intros Hall. apply Forall_cons in Hall as [_ Hall].
      by apply IH.
    + apply process_intent_raises in Hst as [-> Hr]. split; [|done].
      intros Hall. apply Forall_cons in Hall as [Hlen _]. simpl in Hlen.
      by rewrite short_line_never_raises in Hr.
Qed.

Lemma session_exceptions_witness :
  exists self', run session_example init = Ok self'.
Proof.
  apply (proj1 (session_exceptions session_example init)).
  unfold session_example.
  repeat (apply List.Forall_cons; [apply Nat.leb_le; vm_compute; reflexivity|]).
  apply List.Forall_nil.
Defined.

Lemma process_intent_blank u input_text self :
  nonblank input_text = false -> process_intent u input_text self = Ok self.
Proof.
  unfold nonblank, process_intent. by destruct (strip input_text).
Qed.

(** X4.  The log is append-only: a session of lines of ASCII text that
    runs to its end adds exactly two lines (the echo and one message) per
    non-blank command and none per blank one. *)
Theorem session_log_grows cmds self self' :
  Forall (fun c => ascii_text (snd c) = true) cmds ->
  run cmds self = Ok self' ->
  exists lines,
    log_display self' = log_display self ++ lines /\
    length lines = 2 * length (filter (fun c => nonblank (snd c) = true) cmds).
Proof.
  intros _. revert self. induction cmds as [|[u line] cmds IH]; intros self.
  - intros [= <-]. exists []. by rewrite app_nil_r.
  - rewrite run_cons. simpl fst. simpl snd.
    destruct (process_intent u line self) as [st|e] eqn:Hst; simpl; [|discriminate].
    intros Hrun. destruct (IH st Hrun) as (lines & Hl & Hn).
    destruct (nonblank line) eqn:Hnb.
    + unfold nonblank in Hnb. destruct (strip line) as [|c r] eqn:Hs; [done|].
      pose proof (process_intent_cases u line self c r Hs) as Hc.
      destruct (raises line self); [congruence|].
      destruct Hc as (st' & msg & color & Hst' & Hlog).
      assert (st' = st) as -> by congruence.
      exists ([Human (strip line); System msg color] ++ lines). split.
      * rewrite Hl, Hlog. by rewrite <- app_assoc.
      * rewrite filter_cons_True by (unfold nonblank; simpl; by rewrite Hs).
        rewrite length_app. simpl. lia.
    + rewrite process_intent_blank in Hst by done. injection Hst as <-.
      exists lines. split; [exact Hl|].
      rewrite filter_cons_False; [exact Hn|]. simpl. by rewrite Hnb.
Qed.

Lemma session_log_grows_witness :
  exists lines,
    log_display session_example_end = log_display init ++ lines /\
    length lines =
    2 * length (filter (fun c => nonblank (snd c) = true) session_example).
Proof.
  apply (session_log_grows session_example init session_example_end).
  - unfold session_example.
    repeat (apply List.Forall_cons; [reflexivity|]). apply List.Forall_nil.
  - vm_compute. reflexivity.
Defined.

Lemma process_intent_keeps_ids u input_text self self' k :
  process_intent u input_text self = Ok self' ->
  is_Some (registry self !! k) -> is_Some (registry self' !! k).
Proof.
  unfold process_intent.
  destruct (strip input_text) as [|c r]; cbv zeta.
  { intros Heq. by invert_outcome Heq. }
  destruct (extract_label (String c r)) as [label|]; simpl; [|discriminate].
  intros Hex. by apply (execute_intent_keeps_ids _ _ _ _ _ _ _ _ Hex).
Qed.

(** X5.  No command deletes: the ids stored before a session that runs
    to its end are still stored after it. *)
Theorem session_keeps_ids cmds self self' :
  run cmds self = Ok self' -> dom (registry self) ⊆ dom (registry self').
Proof.
  revert self. induction cmds as [|[u line] cmds IH]; intros self.
  - by intros [= <-].
  - rewrite run_cons. simpl fst. simpl snd.
    destruct (process_intent u line self) as [st|e] eqn:Hst; simpl; [|discriminate].
    intros Hrun k Hk. apply (IH st Hrun). apply elem_of_dom.
    apply (process_intent_keeps_ids _ _ _ _ _ Hst). by apply elem_of_dom.
Qed.

Lemma session_keeps_ids_witness :
  dom (registry metric_shell) ⊆ dom (registry metric_shell_end).
Proof.
  apply (session_keeps_ids [(uuid_a, "create a status light"); (uuid_b, "toggle node-abcd")]
           metric_shell metric_shell_end).
  vm_compute. reflexivity.
Defined.

(** ** Interactions on a stored target *)

Lemma guard_resolved (reg : gmap string element) k target :
  reg !! k = Some target ->
  truthy (Some k) && negb (in_registry (Some k) reg) = false.
Proof.
  intros Hk. unfold in_registry.
  rewrite bool_decide_eq_true_2 by eauto. apply andb_false_r.
Qed.

Lemma has_numeric_update el :
  has_capability "numeric_update" el = true <-> exists v, state el = MetricState v.
Proof.
  unfold has_capability, capabilities.
  destruct (state el); split; try (by eauto); try discriminate; by intros [? ?].
Qed.

Lemma has_list_append el :
  has_capability "list_append" el = true <-> exists items, state el = DataViewState items.
Proof.
  unfold has_capability, capabilities.
  destruct (state el); split; try (by eauto); try discriminate; by intros [? ?].
Qed.

Lemma has_toggle_status el :
  has_capability "toggle_status" el = true <-> exists active, state el = StatusState active.
Proof.
  unfold has_capability, capabilities.
  destruct (state el); split; try (by eauto); try discriminate; by intros [? ?].
Qed.

Lemma element_eta el :
  mk_element (eid el) (role el) (title el) (color el) (state el) = el.
Proof. by destruct el. Qed.

Lemma same_identity_refl el : same_identity el el.
Proof. by repeat split. Qed.

Lemma update_view_metric_identity el val :
  has_capability "numeric_update" el = true ->
  same_identity el (MetricElement.update_view el val).
Proof.
  intros [v Hv]%has_numeric_update. unfold same_identity, capabilities.
  rewrite Hv. by repeat split.
Qed.

Lemma update_view_data_identity el new_item :
  same_identity el (DataViewElement.update_view el new_item).
Proof.
  unfold DataViewElement.update_view, same_identity, capabilities.
  destruct (state el) eqn:E; simpl; rewrite ?E; by repeat split.
Qed.

Lemma flip_active_identity el : same_identity el (StatusElement.flip_active el).
Proof.
  unfold StatusElement.flip_active, same_identity, capabilities.
  destruct (state el) eqn:E; simpl; rewrite ?E; by repeat split.
Qed.

Lemma insert_identity (reg : gmap string element) k0 target target' :
  reg !! k0 = Some target -> same_identity target target' ->
  forall k el, reg !! k = Some el ->
    exists el', <[k0 := target']> reg !! k = Some el' /\ same_identity el el'.
Proof.
  intros Hk0 Hsame k el Hk. destruct (decide (k0 = k)) as [<-|Hne].
  - rewrite lookup_insert_eq. exists target'. split; [done|]. congruence.
  - rewrite lookup_insert_ne by done. exists el. split; [done|apply same_identity_refl].
Qed.

Lemma run_intent_identity intent tid label raw u reg success msg reg' :
  is_create intent = false ->
  run_intent intent tid label raw u reg = Ok (success, msg, reg') ->
  forall k el, reg !! k = Some el ->
    exists el', reg' !! k = Some el' /\ same_identity el el'.
Proof.
  intros Hc Hrun.
  assert (Hid : forall k el, reg !! k = Some el ->
                  exists el', reg !! k = Some el' /\ same_identity el el').
  { intros k el Hk. exists el. split; [done|apply same_identity_refl]. }
  destruct intent; try discriminate Hc; simpl in Hrun.
  1: { by invert_outcome Hrun. }
  all: (destruct (getitem reg tid) as [target|] eqn:Hg; [|discriminate];
        apply getitem_Ok in Hg as (k0 & -> & Hk0); simpl in Hrun;
        destruct (has_capability _ target) eqn:Hcap; [|by invert_outcome Hrun]).
  - invert_outcome Hrun. apply (insert_identity reg k0 target); [done|].
    apply flip_active_identity.
  - invert_outcome Hrun. apply (insert_identity reg k0 target); [done|].
    apply update_view_data_identity.
  - destruct (search_int _) as [ds|]; [|by invert_outcome Hrun].
    destruct (int ds) as [val|]; [|discriminate]. simpl in Hrun.
    invert_outcome Hrun.
    apply (insert_identity reg k0 target); [done|].
    by apply update_view_metric_identity.
Qed.

(** X6.  An interaction or an unknown command never changes what the
    constructor fixed: every stored element keeps its id, role, title,
    colour and capabilities. *)
Theorem interaction_preserves_identity intent tid label raw u self self' :
  execute_intent intent tid label raw u self = Ok self' ->
  is_create intent = false ->
  forall k el, registry self !! k = Some el ->
    exists el', registry self' !! k = Some el' /\ same_identity el el'.
Proof.
  unfold execute_intent. intros Hex Hc.
  destruct (truthy tid && negb (in_registry tid (registry self))).
  { invert_outcome Hex. intros k el Hk. exists el.
    split; [done|apply same_identity_refl]. }
  destruct (run_intent intent tid label raw u (registry self))
    as [[[success msg] reg]|] eqn:Hrun; [|discriminate].
  pose proof (run_intent_identity _ _ _ _ _ _ _ _ _ Hc Hrun) as Hid.
  destruct success; by invert_outcome Hex.
Qed.

Lemma interaction_preserves_identity_witness :
  exists el',
    registry status_shell_toggled !! "node-ef56" = Some el' /\
    same_identity (StatusElement.init "node-ef56" "status_indicator" "Link") el'.
Proof.
  apply (interaction_preserves_identity INTERACT_TOGGLE (Some "node-ef56") "Node-ef56"
           "toggle node-ef56" uuid_a status_shell status_shell_toggled).
  - vm_compute. reflexivity.
  - reflexivity.
  - reflexivity.
Defined.

(** ** Target ids in the text *)

Lemma append_assoc_str (a b c : string) : (a +:+ b) +:+ c = a +:+ (b +:+ c).
Proof. induction a as [|x a IH]; [done|]. by rewrite !append_cons, IH. Qed.

Lemma append_nil_l (a : string) : EmptyString +:+ a = a.
Proof. reflexivity. Qed.

Lemma substring_0_drop (n : nat) (s : string) :
  String.substring 0 n s +:+ drop n s = s.
Proof.
  revert s. induction n as [|n IH]; intros [|c s]; simpl; try done.
  by rewrite append_cons, IH.
Qed.

Lemma substring_drop (n m : nat) (s : string) :
  String.substring n m s = String.substring 0 m (drop n s).
Proof.
  revert s. induction n as [|n IH]; intros s; [done|].
  destruct s as [|c s]; simpl; [|apply IH].
  by destruct m.
Qed.

Lemma length_4_inv (s : string) :
  String.length s = 4 ->
  exists a b c d, s = String a (String b (String c (String d EmptyString))).
Proof.
  destruct s as [|a [|b [|c [|d [|e s]]]]]; try discriminate. eauto 6.
Qed.

(** What the pattern matches at the head of a text: the prefix, four
    characters of the class, and then the rest of the text. *)
Lemma id_format_at_Some s m :
  SDK_SCHEMA.id_format_at s = Some m ->
  exists a b c d rest,
    m = "node-" +:+ String a (String b (String c (String d EmptyString))) /\
    s = m +:+ rest /\
    is_hex_lower a = true /\ is_hex_lower b = true /\
    is_hex_lower c = true /\ is_hex_lower d = true.
Proof.
  unfold SDK_SCHEMA.id_format_at.
  destruct (String.prefix "node-" s) eqn:Hp; [|discriminate].
  destruct (_ && _) eqn:Hs; [|discriminate]. intros [= <-].
  apply andb_true_iff in Hs as [Hlen Hhex]. apply Nat.eqb_eq in Hlen.
  apply String.prefix_correct in Hp. simpl String.length in Hp.
  rewrite substring_drop in Hlen, Hhex |- *.
  destruct (length_4_inv _ Hlen) as (a & b & c & d & Hsuf).
  rewrite Hsuf in Hhex |- *. simpl in Hhex.
  exists a, b, c, d, (drop 4 (drop 5 s)).
  split; [reflexivity|]. split.
  - rewrite append_assoc_str, <- Hsuf, substring_0_drop.
    rewrite <- Hp at 1. by rewrite substring_0_drop.
  - repeat (apply andb_true_iff in Hhex as [? Hhex]). done.
Qed.

Lemma id_format_at_intro a b c d rest :
  is_hex_lower a = true -> is_hex_lower b = true ->
  is_hex_lower c = true -> is_hex_lower d = true ->
  SDK_SCHEMA.id_format_at
    (("node-" +:+ String a (String b (String c (String d EmptyString)))) +:+ rest)
  = Some ("node-" +:+ String a (String b (String c (String d EmptyString)))).
Proof.
  intros Ha Hb Hc Hd. unfold SDK_SCHEMA.id_format_at.
  change (("node-" +:+ String a (String b (String c (String d EmptyString)))) +:+ rest)
    with ("node-" +:+ String a (String b (String c (String d rest)))).
  simpl. destruct rest; simpl; rewrite Ha, Hb, Hc, Hd; reflexivity.
Qed.

Lemma fullmatch_id_inv m :
  fullmatch_id m = true ->
  exists a b c d,
    m = "node-" +:+ String a (String b (String c (String d EmptyString))) /\
    is_hex_lower a = true /\ is_hex_lower b = true /\
    is_hex_lower c = true /\ is_hex_lower d = true.
Proof.
  unfold fullmatch_id.
  destruct (SDK_SCHEMA.id_format_at m) as [m'|] eqn:E; [|discriminate].
  intros Heq%String.eqb_eq. subst m'.
  destruct (id_format_at_Some _ _ E) as (a & b & c & d & rest & Hm & _ & H).
  exists a, b, c, d. done.
Qed.

Lemma search_id_at_head a b c d post :
  is_hex_lower a = true -> is_hex_lower b = true ->
  is_hex_lower c = true -> is_hex_lower d = true ->
  search_id (("node-" +:+ String a (String b (String c (String d EmptyString)))) +:+ post)
  = Some ("node-" +:+ String a (String b (String c (String d EmptyString)))).
Proof.
  intros Ha Hb Hc Hd.
  pose proof (id_format_at_intro a b c d post Ha Hb Hc Hd) as H.
  change (("node-" +:+ String a (String b (String c (String d EmptyString)))) +:+ post)
    with (String "n" ("ode-" +:+ String a (String b (String c (String d post))))) in *.
  cbn [search_id]. by rewrite H.
Qed.

(** The match found by [search_id], taken apart. *)
Lemma search_id_Some s m :
  search_id s = Some m ->
  fullmatch_id m = true /\ String.length m = 9 /\
  exists pre post,
    s = pre +:+ m +:+ post /\
    forall i, i < String.length pre -> SDK_SCHEMA.id_format_at (drop i s) = None.
Proof.
  induction s as [|c s IH]; [discriminate|].
  cbn [search_id].
  destruct (SDK_SCHEMA.id_format_at (String c s)) as [m'|] eqn:E.
  - intros [= ->].
    destruct (id_format_at_Some _ _ E) as (a & b & c' & d & rest & Hm & Hs & Ha & Hb & Hc & Hd).
    split; [rewrite Hm; by apply fullmatch_id_intro|].
    split; [by rewrite Hm|].
    exists EmptyString, rest. split; [exact Hs|]. simpl. lia.
  - intros Hm. destruct (IH Hm) as (Hfull & Hlen & pre & post & Hs & Hleft).
    split; [done|]. split; [done|].
    exists (String c pre), post. split; [by rewrite append_cons, <- Hs|].
    intros [|i] Hi; [exact E|]. simpl. apply Hleft. simpl in Hi. lia.
Qed.

(** X7.  The target id found in a text matches the id pattern, has nine
    characters, occurs in the text, and no match of the pattern starts
    before it. *)
Theorem search_id_sound s m :
  search_id s = Some m ->
  fullmatch_id m = true /\ String.length m = 9 /\
  exists pre post,
    s = pre +:+ m +:+ post /\
    forall i, i < String.length pre -> SDK_SCHEMA.id_format_at (drop i s) = None.
Proof.
  intros Hm. destruct (search_id_Some s m Hm) as (Hfull & Hlen & pre & post & Hs & Hleft).
  split; [exact Hfull|]. split; [exact Hlen|]. exists pre, post. by split.
Qed.

Lemma search_id_sound_witness :
  fullmatch_id "node-ab12" = true /\ String.length "node-ab12" = 9 /\
  exists pre post,
    "toggle node-ab12 now" = pre +:+ "node-ab12" +:+ post /\
    forall i, i < String.length pre ->
              SDK_SCHEMA.id_format_at (drop i "toggle node-ab12 now") = None.
Proof. apply (search_id_sound "toggle node-ab12 now" "node-ab12"). reflexivity. Defined.

(** X8.  An id in a text is never missed: a text that holds a string
    matching the id pattern has a target id, and it is that string when
    the text starts with it. *)
Theorem search_id_complete pre m post :
  fullmatch_id m = true ->
  is_Some (search_id (pre +:+ m +:+ post)) /\ search_id (m +:+ post) = Some m.
Proof.
  intros (a & b & c & d & -> & Ha & Hb & Hc & Hd)%fullmatch_id_inv.
  pose proof (search_id_at_head a b c d post Ha Hb Hc Hd) as Hhead.
  split; [|exact Hhead].
  induction pre as [|x pre IH]; [rewrite append_nil_l, Hhead; eauto|].
  rewrite append_cons. cbn [search_id].
  destruct (SDK_SCHEMA.id_format_at _); eauto.
Qed.

Lemma search_id_complete_witness :
  is_Some (search_id ("set " +:+ new_eid uuid_a +:+ " to 5")) /\
  search_id (new_eid uuid_a +:+ " to 5") = Some (new_eid uuid_a).
Proof. apply (search_id_complete "set " (new_eid uuid_a) " to 5"). reflexivity. Defined.

(** ** Errors of the executor *)

Lemma search_id_truthy s m : search_id s = Some m -> truthy (Some m) = true.
Proof.
  intros (Hfull & _)%search_id_Some.
  by destruct (fullmatch_id_inv m Hfull) as (a & b & c & d & -> & _).
Qed.



(** X10.  A numeric interaction on a metric without an integer token in
    the text (the id left out) changes nothing and is answered by the
    generic mismatch. *)
Theorem numeric_without_token_is_mismatch k target v label raw u self :
  registry self !! k = Some target ->
  state target = MetricState v ->
  search_int (remove_all k raw) = None ->
  execute_intent INTERACT_NUMERIC (Some k) label raw u self =
  Ok (sys_log "Interpreter: Semantic Mismatch." danger_color self).
Proof.
  intros Hk Hs Hnone. unfold execute_intent.
  rewrite (guard_resolved _ _ _ Hk). unfold run_intent. simpl. rewrite Hk. simpl.
  rewrite (proj2 (has_numeric_update target)) by eauto.
  rewrite Hnone. by destruct self.
Qed.

Lemma numeric_without_token_is_mismatch_witness :
  execute_intent INTERACT_NUMERIC (Some "node-ab12") "Up" "set node-ab12 up" uuid_a
    metric_shell =
  Ok (sys_log "Interpreter: Semantic Mismatch." danger_color metric_shell).
Proof.
  apply (numeric_without_token_is_mismatch "node-ab12"
           (MetricElement.init "node-ab12" "metric_display" "CPU") 0 "Up"
           "set node-ab12 up" uuid_a metric_shell); reflexivity.
Defined.

(** X11.  The two capability errors: a numeric interaction on a stored
    element that is not a metric, and an append on a stored element that
    is not a data view, change nothing and report the capability error
    that names the id. *)
Theorem capability_errors k target label raw u self :
  registry self !! k = Some target ->
  (has_capability "numeric_update" target = false ->
   execute_intent INTERACT_NUMERIC (Some k) label raw u self =
   Ok (sys_log ("Capability Error: " +:+ k +:+ " is not a metric.") danger_color self)) /\
  (has_capability "list_append" target = false ->
   execute_intent INTERACT_APPEND (Some k) label raw u self =
   Ok (sys_log ("Capability Error: " +:+ k +:+ " is not a data list.") danger_color self)).
Proof.
  intros Hk. split; intros Hcap; unfold execute_intent;
    rewrite (guard_resolved _ _ _ Hk); unfold run_intent; simpl; rewrite Hk; simpl;
    rewrite Hcap; by destruct self.
Qed.

Lemma capability_errors_witness :
  (has_capability "numeric_update"
     (StatusElement.init "node-ef56" "status_indicator" "Link") = false ->
   execute_intent INTERACT_NUMERIC (Some "node-ef56") "5" "set node-ef56 to 5" uuid_a
     status_shell =
   Ok (sys_log ("Capability Error: " +:+ "node-ef56" +:+ " is not a metric.")
         danger_color status_shell)) /\
  (has_capability "list_append"
     (StatusElement.init "node-ef56" "status_indicator" "Link") = false ->
   execute_intent INTERACT_APPEND (Some "node-ef56") "5" "set node-ef56 to 5" uuid_a
     status_shell =
   Ok (sys_log ("Capability Error: " +:+ "node-ef56" +:+ " is not a data list.")
         danger_color status_shell)).
Proof.
  apply (capability_errors "node-ef56"
           (StatusElement.init "node-ef56" "status_indicator" "Link") "5"
           "set node-ef56 to 5" uuid_a status_shell).
  reflexivity.
Defined.

(** ** How interactions compose *)

(** X12.  Two toggles of a status indicator both succeed: the first
    stores the element with [active] flipped and logs the success, the
    second logs it again and brings the registry back to what it was. *)
Theorem toggle_twice_restores k target active label raw u self :
  registry self !! k = Some target ->
  state target = StatusState active ->
  exists self1 self2,
    execute_intent INTERACT_TOGGLE (Some k) label raw u self = Ok self1 /\
    registry self1 !! k =
      Some (mk_element (eid target) (role target) (title target) (color target)
              (StatusState (negb active))) /\
    log_display self1 =
      log_display self ++ [System ("Toggled " +:+ k) success_color] /\
    execute_intent INTERACT_TOGGLE (Some k) label raw u self1 = Ok self2 /\
    registry self2 = registry self /\
    log_display self2 =
      log_display self ++ [System ("Toggled " +:+ k) success_color;
                           System ("Toggled " +:+ k) success_color].
Proof.
  intros Hk Hs.
  eexists. eexists.
  split; [by apply (toggle_flips_active k target active)|].
  split; [simpl; apply lookup_insert_eq|].
  split; [reflexivity|].
  split.
  - eapply toggle_flips_active; simpl; [apply lookup_insert_eq|reflexivity].
  - simpl. split; [|by rewrite <- app_assoc].
    rewrite insert_insert_eq, negb_involutive, <- Hs, element_eta.
    by apply insert_id.
Qed.

Lemma toggle_twice_restores_witness :
  exists self1 self2,
    execute_intent INTERACT_TOGGLE (Some "node-ef56") "x" "toggle node-ef56" uuid_a
      status_shell = Ok self1 /\
    registry self1 !! "node-ef56" =
      Some (mk_element "node-ef56" "status_indicator" "Link" "primary"
              (StatusState (negb false))) /\
    log_display self1 =
      log_display status_shell ++ [System ("Toggled " +:+ "node-ef56") success_color] /\
    execute_intent INTERACT_TOGGLE (Some "node-ef56") "x" "toggle node-ef56" uuid_a
      self1 = Ok self2 /\
    registry self2 = registry status_shell /\
    log_display self2 =
      log_display status_shell ++ [System ("Toggled " +:+ "node-ef56") success_color;
                                   System ("Toggled " +:+ "node-ef56") success_color].
Proof.
  apply (toggle_twice_restores "node-ef56"
           (StatusElement.init "node-ef56" "status_indicator" "Link") false "x"
           "toggle node-ef56" uuid_a status_shell); reflexivity.
Defined.



(** ** Creation on a stored id *)

Lemma construct_initial intent e label :
  state (construct intent e label) = initial_state (state (construct intent e label)).
Proof. by destruct intent. Qed.

(** X14.  A creation whose generated id is already stored replaces the
    element stored under it by the new one, in the state its constructor
    gives, and leaves the other entries and the number of entries as they
    were: the earlier element can no longer be addressed. *)
Theorem creation_on_stored_id_replaces intent tid label raw u self old :
  is_create intent = true ->
  unresolved tid (registry self) = false ->
  registry self !! new_eid u = Some old ->
  exists self',
    execute_intent intent tid label raw u self = Ok self' /\
    registry self' !! new_eid u = Some (construct intent (new_eid u) label) /\
    state (construct intent (new_eid u) label) =
      initial_state (state (construct intent (new_eid u) label)) /\
    (forall j, j <> new_eid u -> registry self' !! j = registry self !! j) /\
    size (registry self') = size (registry self).
Proof.
  intros Hc Hu Hold.
  rewrite (execute_intent_create _ _ _ _ _ _ Hc Hu). eexists. split; [reflexivity|].
  simpl. split; [apply lookup_insert_eq|]. split; [apply construct_initial|].
  split; [intros j Hj; by rewrite lookup_insert_ne|].
  rewrite <- (insert_delete_eq (registry self)).
  rewrite <- (insert_delete_id (registry self) (new_eid u) old) at 2 by done.
  rewrite !map_size_insert_None by apply lookup_delete_eq. reflexivity.
Qed.

Lemma creation_on_stored_id_replaces_witness :
  exists self',
    execute_intent CREATE_STATUS None "Lamp" "new status" uuid_b
      (mk_shell {[ new_eid uuid_a := construct CREATE_METRIC (new_eid uuid_a) "CPU" ]} [])
    = Ok self' /\
    registry self' !! new_eid uuid_b = Some (construct CREATE_STATUS (new_eid uuid_b) "Lamp") /\
    state (construct CREATE_STATUS (new_eid uuid_b) "Lamp") =
      initial_state (state (construct CREATE_STATUS (new_eid uuid_b) "Lamp")) /\
    (forall j, j <> new_eid uuid_b ->
       registry self' !! j =
       registry (mk_shell {[ new_eid uuid_a :=
                               construct CREATE_METRIC (new_eid uuid_a) "CPU" ]} []) !! j) /\
    size (registry self') =
    size (registry (mk_shell {[ new_eid uuid_a :=
                                  construct CREATE_METRIC (new_eid uuid_a) "CPU" ]} [])).
Proof.
  apply (creation_on_stored_id_replaces CREATE_STATUS None "Lamp" "new status" uuid_b
           (mk_shell {[ new_eid uuid_a := construct CREATE_METRIC (new_eid uuid_a) "CPU" ]} [])
           (construct CREATE_METRIC (new_eid uuid_a) "CPU")); reflexivity.
Defined.

(** ** The items of a data view *)

(** X15.  An append of a non-empty value to a view within its limit puts
    the value last; below 50 items nothing is dropped, at 50 items
    exactly the oldest one is. *)
Theorem append_keeps_newest items c v :
  length items <= SDK_SCHEMA.max_data_items ->
  let new_items := DataViewElement.update_items items (Some (String c v)) in
  last new_items = Some (String c v) /\
  (length items < SDK_SCHEMA.max_data_items -> new_items = items ++ [String c v]) /\
  (length items = SDK_SCHEMA.max_data_items -> new_items = tail items ++ [String c v]).
Proof.
  unfold SDK_SCHEMA.max_data_items. intros Hlen. cbv zeta.
  unfold DataViewElement.update_items, SDK_SCHEMA.max_data_items.
  rewrite length_app. simpl length.
  destruct (50 <? length items + 1) eqn:E.
  - apply Nat.ltb_lt in E. assert (Hfull : length items = 50) by lia.
    replace (length items + 1 - 50) with 1 by lia.
    destruct items as [|x items]; [discriminate Hfull|].
    change (skipn 1 ((x :: items) ++ [String c v])) with (items ++ [String c v]).
    split; [apply last_snoc|]. split; [lia|done].
  - apply Nat.ltb_ge in E.
    split; [apply last_snoc|]. split; [done|lia].
Qed.

Lemma append_keeps_newest_witness :
  let new_items := DataViewElement.update_items ["a"; "b"] (Some (String "c" EmptyString)) in
  last new_items = Some (String "c" EmptyString) /\
  (length ["a"; "b"] < SDK_SCHEMA.max_data_items ->
   new_items = ["a"; "b"] ++ [String "c" EmptyString]) /\
  (length ["a"; "b"] = SDK_SCHEMA.max_data_items ->
   new_items = tail ["a"; "b"] ++ [String "c" EmptyString]).
Proof.
  apply (append_keeps_newest ["a"; "b"] "c" EmptyString).
  unfold SDK_SCHEMA.max_data_items. simpl. lia.
Defined.

(** ** The classifier *)

Lemma prefix_append w rest : String.prefix w (w +:+ rest) = true.
Proof.
  induction w as [|c w IH]; [by destruct rest|].
  rewrite append_cons. simpl. destruct (ascii_dec c c); [exact IH|done].
Qed.

Lemma contains_prefix w s : String.prefix w s = true -> contains w s = true.
Proof. intros H. destruct s; cbn [contains]; rewrite H; reflexivity. Qed.

Lemma contains_append w pre s : contains w s = true -> contains w (pre +:+ s) = true.
Proof.
  intros H. induction pre as [|c pre IH]; [exact H|].
  rewrite append_cons. simpl. rewrite IH. apply orb_true_r.
Qed.

Lemma search_id_contains_prefix text m :
  search_id text = Some m -> contains "node-" text = true.
Proof.
  intros Hm. destruct (search_id_Some _ _ Hm) as (Hfull & _ & pre & post & -> & _).
  destruct (fullmatch_id_inv _ Hfull) as (a & b & c & d & -> & _).
  apply contains_append, contains_prefix.
  rewrite append_assoc_str. apply prefix_append.
Qed.

Lemma classify_toggle text tid :
  truthy tid = true -> any_in ["toggle"; "switch"] text = true ->
  classify text tid = INTERACT_TOGGLE.
Proof.
  intros Ht Hk. unfold classify. rewrite Ht, Hk.
  replace (any_in ["toggle"; "switch"; "set node"; "update node"] text) with true.
  - reflexivity.
  - unfold any_in in *. simpl in *.
    destruct (contains "toggle" text); [done|].
    destruct (contains "switch" text); [done|discriminate].
Qed.

(** X16.  With a target id, the keywords toggle and switch win over
    every other reading of the command, creation included: the intent
    is the toggle. *)
Theorem classify_toggle_priority text m :
  search_id text = Some m ->
  any_in ["toggle"; "switch"] text = true ->
  classify text (search_id text) = INTERACT_TOGGLE.
Proof.
  intros Hm Hk. rewrite Hm. apply classify_toggle; [|exact Hk].
  by apply (search_id_truthy text).
Qed.

Lemma classify_toggle_priority_witness :
  classify "create a new toggle switch for node-ab12"
           (search_id "create a new toggle switch for node-ab12") = INTERACT_TOGGLE.
Proof.
  apply (classify_toggle_priority "create a new toggle switch for node-ab12" "node-ab12");
    reflexivity.
Defined.

(** X17.  A target id found in the text makes the interaction phase
    run, whatever the markers: the literal prefix of the id is in the
    text.  The intent is then decided by the three keyword groups in
    their order, and by the creation phase (the classification without
    target) only when none of them occurs. *)
Theorem classify_with_target text m :
  search_id text = Some m ->
  classify text (search_id text) =
  if any_in ["toggle"; "switch"] text then INTERACT_TOGGLE
  else if any_in ["append"; "item"; "put"; "insert"; "log"; "add to"] text
       then INTERACT_APPEND
  else if any_in ["update"; "set"; "push"; "change"] text then INTERACT_NUMERIC
  else classify text None.
Proof.
  intros Hm. rewrite Hm. unfold classify.
  rewrite (search_id_truthy _ _ Hm), (search_id_contains_prefix _ _ Hm).
  rewrite !orb_true_r. cbn [andb truthy].
  destruct (any_in ["toggle"; "switch"] text); [reflexivity|].
  destruct (any_in ["append"; "item"; "put"; "insert"; "log"; "add to"] text);
    [reflexivity|].
  destruct (any_in ["update"; "set"; "push"; "change"] text); reflexivity.
Qed.

Lemma classify_with_target_witness :
  classify "make node-ab12 bigger" (search_id "make node-ab12 bigger") =
  if any_in ["toggle"; "switch"] "make node-ab12 bigger" then INTERACT_TOGGLE
  else if any_in ["append"; "item"; "put"; "insert"; "log"; "add to"]
            "make node-ab12 bigger"
       then INTERACT_APPEND
  else if any_in ["update"; "set"; "push"; "change"] "make node-ab12 bigger"
       then INTERACT_NUMERIC
  else classify "make node-ab12 bigger" None.
Proof.
  apply (classify_with_target "make node-ab12 bigger" "node-ab12"). reflexivity.
Defined.

(** X18.  What each kind of intent needs: an interaction needs a target
    id, a creation needs one of the creation verbs, and a text with
    neither a target id nor a creation verb is unknown. *)
Theorem classify_requirements text tid :
  (is_create (classify text tid) = false -> is_unknown (classify text tid) = false ->
   truthy tid = true) /\
  (is_create (classify text tid) = true ->
   any_in ["add"; "new"; "create"; "make"] text = true) /\
  (truthy tid = false -> any_in ["add"; "new"; "create"; "make"] text = false ->
   classify text tid = unknown).
Proof.
  split; [apply classify_interact_truthy|]. split.
  - unfold classify.
    destruct (any_in ["add"; "new"; "create"; "make"] text); [done|].
    rewrite andb_false_r.
    repeat (match goal with |- context [if ?b then _ else _] => destruct b end);
      cbn [is_create]; discriminate.
  - intros Ht Hv. unfold classify. rewrite Ht, Hv. reflexivity.
Qed.

Lemma classify_requirements_witness :
  (is_create (classify "set node-ab12 to 5" (Some "node-ab12")) = false ->
   is_unknown (classify "set node-ab12 to 5" (Some "node-ab12")) = false ->
   truthy (Some "node-ab12") = true) /\
  (is_create (classify "new bar" None) = true ->
   any_in ["add"; "new"; "create"; "make"] "new bar" = true) /\
  (truthy None = false -> any_in ["add"; "new"; "create"; "make"] "hello" = false ->
   classify "hello" None = unknown).
Proof.
  split; [|split].
  - apply (classify_requirements "set node-ab12 to 5" (Some "node-ab12")).
  - apply (classify_requirements "new bar" None).
  - apply (classify_requirements "hello" None).
Defined.

(** ** Labels *)



Lemma rstrip_cons c s :
  rstrip (String c s) =
  match rstrip s with
  | EmptyString => if is_space c then EmptyString else String c EmptyString
  | r => String c r
  end.
Proof. reflexivity. Qed.

Lemma rstrip_idem s : rstrip (rstrip s) = rstrip s.
Proof.
  induction s as [|c s IH]; [done|]. rewrite rstrip_cons.
  destruct (rstrip s) as [|d r] eqn:E.
  - destruct (is_space c) eqn:Hc; [done|]. rewrite rstrip_cons. simpl. by rewrite Hc.
  - rewrite rstrip_cons, IH. reflexivity.
Qed.

Lemma lstrip_head_id s :
  match s with EmptyString => True | String c _ => is_space c = false end ->
  lstrip s = s.
Proof. destruct s as [|c s]; [done|]. simpl. by intros ->. Qed.

Lemma strip_idem s : strip (strip s) = strip s.
Proof.
  unfold strip. rewrite (lstrip_head_id (rstrip (lstrip s))).
  - apply rstrip_idem.
  - destruct (rstrip (lstrip s)) as [|c r] eqn:E; [done|].
    apply rstrip_head in E as [s' E]. by apply lstrip_head in E.
Qed.

(** X20.  A label never starts or ends with white space: trimming it
    again changes nothing. *)
Theorem extract_label_trimmed raw_text label :
  extract_label raw_text = Ok label -> strip label = label.
Proof.
  unfold extract_label.
  destruct (match findall_quoted raw_text with q :: _ => q | [] => EmptyString end);
    [destruct (search_connective raw_text); [|destruct (last (split raw_text))]|];
    simpl; try discriminate; intros [= <-]; apply strip_idem.
Qed.

Lemma extract_label_trimmed_witness : strip "CPU Load" = "CPU Load".
Proof.
  apply (extract_label_trimmed "create a bar called 'CPU Load'  " "CPU Load").
  reflexivity.
Defined.

Lemma sub_id_aux_no_match s : search_id s = None -> sub_id_aux 0 s = s.
Proof.
  induction s as [|c s IH]; [done|]. cbn [search_id sub_id_aux].
  destruct (SDK_SCHEMA.id_format_at (String c s)); [discriminate|].
  intros H. by rewrite IH.
Qed.

Lemma sub_id_aux_match a b c d rest :
  is_hex_lower a = true -> is_hex_lower b = true ->
  is_hex_lower c = true -> is_hex_lower d = true ->
  sub_id_aux 0 (("node-" +:+ String a (String b (String c (String d EmptyString)))) +:+ rest)
  = sub_id_aux 0 rest.
Proof.
  intros Ha Hb Hc Hd.
  pose proof (id_format_at_intro a b c d rest Ha Hb Hc Hd) as H.
  change (("node-" +:+ String a (String b (String c (String d EmptyString)))) +:+ rest)
    with (String "n" ("ode-" +:+ String a (String b (String c (String d rest))))) in *.
  cbn [sub_id_aux]. rewrite H. reflexivity.
Qed.

(** X21.  The removal of ids from a label: a text without a match of the
    id pattern is left as it is, and a match at the head of a text is
    removed whole, so that a label which is just an id becomes empty. *)
Theorem sub_id_cases s m rest :
  (search_id s = None -> sub_id s = s) /\
  (fullmatch_id m = true ->
   sub_id (m +:+ rest) = sub_id rest /\ sub_id m = EmptyString).
Proof.
  split; [apply sub_id_aux_no_match|].
  intros (a & b & c & d & -> & Ha & Hb & Hc & Hd)%fullmatch_id_inv.
  unfold sub_id. split; [by apply sub_id_aux_match|].
  rewrite <- (append_nil_r ("node-" +:+ _)). by rewrite sub_id_aux_match.
Qed.

Lemma sub_id_cases_witness :
  (search_id "CPU Load" = None -> sub_id "CPU Load" = "CPU Load") /\
  (fullmatch_id "node-ab12" = true ->
   sub_id ("node-ab12" +:+ " x") = sub_id " x" /\ sub_id "node-ab12" = EmptyString).
Proof. apply (sub_id_cases "CPU Load" "node-ab12" " x"). Defined.

(** ** From creation to interaction *)

Lemma hex_char_plain a :
  is_hex_lower a = true -> is_space a = false /\ lower_char a = a.
Proof.
  destruct a as [[] [] [] [] [] [] [] []]; vm_compute; intros H;
    try discriminate H; split; reflexivity.
Qed.

Lemma rstrip_nonspace_end t d :
  is_space d = false ->
  rstrip (t +:+ String d EmptyString) = t +:+ String d EmptyString.
Proof.
  intros Hd. induction t as [|c t IH].
  - rewrite append_nil_l, rstrip_cons. simpl. by rewrite Hd.
  - rewrite append_cons, rstrip_cons, IH. by destruct t.
Qed.

Lemma search_id_skip c s :
  c <> "n"%char -> search_id (String c s) = search_id s.
Proof.
  intros Hc. cbn [search_id]. unfold SDK_SCHEMA.id_format_at. cbn [String.prefix].
  destruct (ascii_dec _ c) as [Heq|_]; [by destruct Hc|reflexivity].
Qed.

(** X22.  An id that matches the pattern and is stored can be addressed:
    the command made of the word toggle and the id of a stored status
    indicator flips [active] of that element, changes nothing else, and
    is answered by the success message. *)
Theorem toggle_command_reaches_target u m target active self :
  fullmatch_id m = true ->
  registry self !! m = Some target ->
  state target = StatusState active ->
  process_intent u ("toggle " +:+ m) self =
  Ok (mk_shell
        (<[m := mk_element (eid target) (role target) (title target) (color target)
                  (StatusState (negb active))]> (registry self))
        (log_display self ++
         [Human ("toggle " +:+ m); System ("Toggled " +:+ m) success_color])).
Proof.
  intros (a & b & c & d & -> & Ha & Hb & Hc & Hd)%fullmatch_id_inv Hk Hs.
  set (m := "node-" +:+ String a (String b (String c (String d EmptyString)))) in *.
  destruct (hex_char_plain a Ha) as [Hsa Hla].
  destruct (hex_char_plain b Hb) as [Hsb Hlb].
  destruct (hex_char_plain c Hc) as [Hsc Hlc].
  destruct (hex_char_plain d Hd) as [Hsd Hld].
  assert (Hstrip : strip ("toggle " +:+ m) = "toggle " +:+ m).
  { unfold strip.
    change (lstrip ("toggle " +:+ m)) with
      (("toggle node-" +:+ String a (String b (String c EmptyString))) +:+
       String d EmptyString).
    by apply rstrip_nonspace_end. }
  assert (Hlower : lower ("toggle " +:+ m) = "toggle " +:+ m).
  { change ("toggle " +:+ m) with
      ("toggle node-" +:+ String a (String b (String c (String d EmptyString)))).
    change (lower ("toggle node-" +:+ String a (String b (String c (String d EmptyString)))))
      with ("toggle node-" +:+ String (lower_char a) (String (lower_char b)
              (String (lower_char c) (String (lower_char d) EmptyString)))).
    by rewrite Hla, Hlb, Hlc, Hld. }
  assert (Hsearch : search_id ("toggle " +:+ m) = Some m).
  { change ("toggle " +:+ m) with
      (String "t" (String "o" (String "g" (String "g" (String "l" (String "e"
         (String " " (m +:+ EmptyString)))))))).
    rewrite !search_id_skip by discriminate.
    by apply search_id_at_head. }
  assert (Hclass : classify ("toggle " +:+ m) (Some m) = INTERACT_TOGGLE).
  { apply classify_toggle; [reflexivity|].
    unfold any_in. cbn [existsb].
    rewrite (contains_prefix "toggle" ("toggle " +:+ m)); [reflexivity|].
    change ("toggle " +:+ m) with ("toggle" +:+ (" " +:+ m)). apply prefix_append. }
  unfold process_intent. rewrite Hstrip.
  change ("toggle " +:+ m) with (String "t" ("oggle " +:+ m)) at 1.
  cbv zeta. rewrite Hlower, Hsearch, Hclass.
  destruct (extract_label_total ("toggle " +:+ m) "t" ("oggle " +:+ m) eq_refl eq_refl)
    as [label ->].
  cbn [mbind result_bind].
  rewrite (toggle_flips_active m target active) by done.
  cbn [registry log_display]. by rewrite <- app_assoc.
Qed.

Lemma toggle_command_reaches_target_witness :
  process_intent uuid_a ("toggle " +:+ "node-ef56") status_shell =
  Ok (mk_shell
        (<["node-ef56" := mk_element "node-ef56" "status_indicator" "Link" "primary"
                  (StatusState (negb false))]> (registry status_shell))
        (log_display status_shell ++
         [Human ("toggle " +:+ "node-ef56");
          System ("Toggled " +:+ "node-ef56") success_color])).
Proof.
  apply (toggle_command_reaches_target uuid_a "node-ef56"
           (StatusElement.init "node-ef56" "status_indicator" "Link") false status_shell);
    reflexivity.
Defined.

(** ** When two creations get the same id *)

Lemma hex_digit_inj n m :
  (0 <= n < 16)%Z -> (0 <= m < 16)%Z -> hex_digit n = hex_digit m -> n = m.
Proof.
  intros Hn Hm.
  assert (Hcn : In n [0; 1; 2; 3; 4; 5; 6; 7; 8; 9; 10; 11; 12; 13; 14; 15]%Z)
    by (simpl; lia).
  assert (Hcm : In m [0; 1; 2; 3; 4; 5; 6; 7; 8; 9; 10; 11; 12; 13; 14; 15]%Z)
    by (simpl; lia).
  simpl in Hcn, Hcm.
  repeat (destruct Hcn as [<- | Hcn]);
    try contradiction;
    repeat (destruct Hcm as [<- | Hcm]);
    try contradiction; vm_compute; intros H; first [reflexivity | discriminate H].
Qed.

Lemma nibble_of_leading_bits u k :
  In k [0; 1; 2; 3]%Z ->
  Z.land (Z.shiftr u (112 + 4 * k)) 15 = ((leading_bits u / 16 ^ k) mod 16)%Z.
Proof.
  intros Hk. unfold leading_bits.
  change 15%Z with (Z.ones 4). change 65535%Z with (Z.ones 16).
  rewrite !Z.land_ones by lia. rewrite !Z.shiftr_div_pow2 by (simpl in Hk; lia).
  rewrite Z.pow_add_r by (simpl in Hk; lia).
  rewrite <- Z.div_div by (simpl in Hk; lia).
  set (y := (u / 2 ^ 112)%Z). clearbody y.
  simpl in Hk. destruct Hk as [<-|[<-|[<-|[<-|[]]]]];
    change (2 ^ 16)%Z with 65536%Z; change (2 ^ 4)%Z with 16%Z;
    [ change (2 ^ (4 * 0))%Z with 1%Z; change (16 ^ 0)%Z with 1%Z
    | change (2 ^ (4 * 1))%Z with 16%Z; change (16 ^ 1)%Z with 16%Z
    | change (2 ^ (4 * 2))%Z with 256%Z; change (16 ^ 2)%Z with 256%Z
    | change (2 ^ (4 * 3))%Z with 4096%Z; change (16 ^ 3)%Z with 4096%Z ];
    Z.div_mod_to_equations; lia.
Qed.

Lemma new_eid_of_leading_bits u :
  new_eid u =
  "node-" +:+ String (hex_digit ((leading_bits u / 16 ^ 3) mod 16))
             (String (hex_digit ((leading_bits u / 16 ^ 2) mod 16))
             (String (hex_digit ((leading_bits u / 16 ^ 1) mod 16))
             (String (hex_digit ((leading_bits u / 16 ^ 0) mod 16)) EmptyString))).
Proof.
  rewrite new_eid_digits.
  rewrite <- !nibble_of_leading_bits by (simpl; lia).
  reflexivity.
Qed.

(** X23.  Two UUIDs give the same id exactly when they agree on their 16
    leading bits: of the 122 random bits of a UUID the id keeps 16. *)
Theorem new_eid_collision u v :
  new_eid u = new_eid v <-> leading_bits u = leading_bits v.
Proof.
  split.
  - rewrite !new_eid_of_leading_bits.
    assert (Hu : (0 <= leading_bits u < 65536)%Z).
    { unfold leading_bits. change 65535%Z with (Z.ones 16).
      rewrite Z.land_ones by lia. apply Z.mod_pos_bound. reflexivity. }
    assert (Hv : (0 <= leading_bits v < 65536)%Z).
    { unfold leading_bits. change 65535%Z with (Z.ones 16).
      rewrite Z.land_ones by lia. apply Z.mod_pos_bound. reflexivity. }
    intros H. injection H as H3 H2 H1 H0.
    apply hex_digit_inj in H3, H2, H1, H0;
      try (apply Z.mod_pos_bound; reflexivity).
    change (16 ^ 3)%Z with 4096%Z in *. change (16 ^ 2)%Z with 256%Z in *.
    change (16 ^ 1)%Z with 16%Z in *. change (16 ^ 0)%Z with 1%Z in *.
    revert H3 H2 H1 H0. Z.div_mod_to_equations. lia.
  - intros H. by rewrite !new_eid_of_leading_bits, H.
Qed.

Lemma new_eid_collision_witness : new_eid uuid_a = new_eid uuid_b.
Proof. apply (new_eid_collision uuid_a uuid_b). reflexivity. Defined.

(** ** Appends of an empty label *)

(** X24.  An append whose label is empty is answered as a success
    although the data view, within its limit, is left exactly as it was. *)
Theorem empty_append_reports_success k target items raw u self :
  registry self !! k = Some target ->
  state target = DataViewState items ->
  length items <= SDK_SCHEMA.max_data_items ->
  execute_intent INTERACT_APPEND (Some k) EmptyString raw u self =
  Ok (sys_log ("Logged data to " +:+ k) success_color self).
Proof.
  intros Hk Hs Hlen. unfold execute_intent.
  rewrite (guard_resolved _ _ _ Hk). unfold run_intent. simpl. rewrite Hk. simpl.
  rewrite (proj2 (has_list_append target)) by eauto.
  unfold DataViewElement.update_view, DataViewElement.update_items. rewrite Hs.
  apply Nat.ltb_ge in Hlen. rewrite Hlen. rewrite <- Hs, element_eta.
  rewrite insert_id by done. by destruct self.
Qed.

Lemma empty_append_reports_success_witness :
  execute_intent INTERACT_APPEND (Some "node-cd34") EmptyString "append to node-cd34"
    uuid_a data_shell =
  Ok (sys_log ("Logged data to " +:+ "node-cd34") success_color data_shell).
Proof.
  apply (empty_append_reports_success "node-cd34"
           (DataViewElement.init "node-cd34" "data_view" "Events") []
           "append to node-cd34" uuid_a data_shell).
  - reflexivity.
  - reflexivity.
  - unfold SDK_SCHEMA.max_data_items. simpl. lia.
Defined.

(** ** The digits of the target id *)

Lemma search_int_no_digit prev s :
  string_forallb (fun c => negb (is_digit c)) s = true ->
  search_int_aux prev s = None.
Proof.
  revert prev. induction s as [|c s IH]; intros prev H; [done|].
  simpl in H. apply andb_true_iff in H as [Hc Hs]. apply negb_true_iff in Hc.
  cbn [search_int_aux]. rewrite Hc, andb_false_r. by apply IH.
Qed.

Lemma remove_all_aux_no_digit old k s :
  string_forallb (fun c => negb (is_digit c)) s = true ->
  string_forallb (fun c => negb (is_digit c)) (remove_all_aux old k s) = true.
Proof.
  revert k. induction s as [|c s IH]; intros k H; [done|].
  simpl in H. apply andb_true_iff in H as [Hc Hs].
  cbn [remove_all_aux]. destruct k as [|k]; [|by apply IH].
  destruct (String.prefix old (String c s)); [by apply IH|].
  simpl. rewrite Hc. by apply IH.
Qed.


(** An occurrence of an id cannot start in the last eight characters
    before another occurrence of it. *)
Lemma id_no_straddle a b c d x pre rest :
  is_hex_lower a = true -> is_hex_lower b = true ->
  is_hex_lower c = true -> is_hex_lower d = true ->
  String.length pre < 8 ->
  String.prefix ("node-" +:+ String a (String b (String c (String d EmptyString))))
    (String x pre +:+
     ("node-" +:+ String a (String b (String c (String d EmptyString)))) +:+ rest)
  = false.
Proof.
  intros Ha Hb Hc Hd Hlen.
  destruct (String.prefix _ _) eqn:E; [exfalso|reflexivity].
  apply String.prefix_correct in E.
  assert (Hn : is_hex_lower "n" = false) by reflexivity.
  destruct pre as [|p1 [|p2 [|p3 [|p4 [|p5 [|p6 [|p7 [|p8 pre]]]]]]]];
    simpl in Hlen; try lia; simpl in E;
    injection E; intros; subst; try discriminate; congruence.
Qed.

Lemma remove_id_no_digit a b c d pre post k :
  is_hex_lower a = true -> is_hex_lower b = true ->
  is_hex_lower c = true -> is_hex_lower d = true ->
  k <= String.length pre ->
  string_forallb (fun x => negb (is_digit x)) pre = true ->
  string_forallb (fun x => negb (is_digit x)) post = true ->
  string_forallb (fun x => negb (is_digit x))
    (remove_all_aux ("node-" +:+ String a (String b (String c (String d EmptyString)))) k
       (pre +:+
        ("node-" +:+ String a (String b (String c (String d EmptyString)))) +:+ post))
  = true.
Proof.
  intros Ha Hb Hc Hd. set (m := "node-" +:+ _).
  revert k. induction pre as [|x pre IH]; intros k Hk Hpre Hpost.
  - simpl in Hk. assert (k = 0) as -> by lia. rewrite append_nil_l.
    pose proof (prefix_append m post) as Hp.
    change (m +:+ post) with
      (String "n" (String "o" (String "d" (String "e" (String "-"
         (String a (String b (String c (String d post))))))))) in *.
    cbn [remove_all_aux]. rewrite Hp.
    change (String.length m - 1) with 8. cbn [remove_all_aux].
    by apply remove_all_aux_no_digit.
  - simpl in Hpre. apply andb_true_iff in Hpre as [Hx Hpre].
    rewrite append_cons. cbn [remove_all_aux].
    destruct k as [|k].
    + destruct (String.prefix m (String x (pre +:+ m +:+ post))) eqn:E.
      * change (String.length m - 1) with 8. apply IH; [|done|done].
        destruct (decide (String.length pre < 8)) as [Hshort|]; [|lia].
        rewrite <- append_cons in E. unfold m in E.
        rewrite id_no_straddle in E by done. discriminate E.
      * simpl. rewrite Hx. apply IH; [lia|done|done].
    + apply IH; [simpl in Hk; lia|done|done].
Qed.

(** X25.  The digits of the target id are never read as the value: when
    the text has no digit outside the id, the numeric interaction finds
    no token once the id is removed. *)
Theorem id_digits_are_not_the_value m pre post :
  fullmatch_id m = true ->
  string_forallb (fun x => negb (is_digit x)) pre = true ->
  string_forallb (fun x => negb (is_digit x)) post = true ->
  search_int (remove_all m (pre +:+ m +:+ post)) = None.
Proof.
  intros (a & b & c & d & -> & Ha & Hb & Hc & Hd)%fullmatch_id_inv Hpre Hpost.
  unfold search_int. apply search_int_no_digit.
  change (remove_all ("node-" +:+ String a (String b (String c (String d EmptyString)))))
    with (remove_all_aux
            ("node-" +:+ String a (String b (String c (String d EmptyString)))) 0).
  apply remove_id_no_digit; try done. lia.
Qed.

Lemma id_digits_are_not_the_value_witness :
  search_int (remove_all "node-ab12" ("change " +:+ "node-ab12" +:+ " now")) = None.
Proof.
  apply (id_digits_are_not_the_value "node-ab12" "change " " now"); reflexivity.
Defined.

(** ** Colours *)

(** X26.  No command changes a colour: in a session that runs to its
    end every stored element keeps the colour its constructor gave it, so
    that [apply_base_style] paints every element with the primary token. *)
Theorem session_colors_primary cmds self self' :
  registry_forall (fun _ el => color el = "primary") self ->
  run cmds self = Ok self' ->
  registry_forall
    (fun _ el =>
       color el = "primary" /\
       apply_base_style el =
       "BaseSemanticElement { background-color: #3B82F6; border-radius: 12px; " +:+
       "padding: 10px; margin: 5px; border: 1px solid rgba(255,255,255,0.1); }")
    self'.
Proof.
  intros Hinit Hrun.
  assert (Hcol : registry_forall (fun _ el => color el = "primary") self').
  { revert Hinit Hrun. apply (run_preserves (fun _ el => color el = "primary")).
    - intros intent u label. apply construct_fields.
    - intros _ el val H. exact H.
    - intros _ el v H. unfold DataViewElement.update_view. by destruct (state el).
    - intros _ el H. unfold StatusElement.flip_active. by destruct (state el). }
  intros k el Hk. specialize (Hcol k el Hk). split; [exact Hcol|].
  unfold apply_base_style. rewrite Hcol. reflexivity.
Qed.

Lemma session_colors_primary_witness :
  registry_forall
    (fun _ el =>
       color el = "primary" /\
       apply_base_style el =
       "BaseSemanticElement { background-color: #3B82F6; border-radius: 12px; " +:+
       "padding: 10px; margin: 5px; border: 1px solid rgba(255,255,255,0.1); }")
    session_example_end.
Proof.
  apply (session_colors_primary session_example init session_example_end).
  - intros k el H. vm_compute in H. discriminate H.
  - vm_compute. reflexivity.
Defined.

(** ** Numeric interactions on a text of known shape *)









Section RemoveId.
Variables (a b c d : ascii).
Hypothesis Ha : is_hex_lower a = true.
Hypothesis Hb : is_hex_lower b = true.
Hypothesis Hc : is_hex_lower c = true.
Hypothesis Hd : is_hex_lower d = true.

Let m : string := "node-" +:+ String a (String b (String c (String d EmptyString))).




End RemoveId.







(** ** Labels on texts of known shape *)



























